(** * streamableHttpWithSseFallbackClient.ts

    A shallow embedding of the backwards compatible MCP example client
    (src/examples/client/streamableHttpWithSseFallbackClient.ts): the
    command line default, the transport negotiation of
    [connectWithBackwardsCompatibility] and the OAuth callback listener
    that the negotiation hands to the provider. *)

From Stdlib Require Import String Ascii List Bool Arith NArith Lia.
From Stdlib Require Import DecimalString.
Import ListNotations.
Local Open Scope string_scope.

(** ** JavaScript values and string helpers *)

Module Js.

(** The values that flow through the example: what a [catch] clause may
    receive and what a template literal interpolates. *)
Inductive value : Type :=
| Undefined
| Str (s : string)
| Arr (xs : list string)
| Err (name message : string).

Definition nl : string := String "010"%char EmptyString.
Definition dquote : string := String "034"%char EmptyString.

(** [Array.prototype.join]. *)
Fixpoint join (sep : string) (xs : list string) : string :=
  match xs with
  | [] => ""
  | [x] => x
  | x :: rest => x ++ sep ++ join sep rest
  end.

(** [ToString], as applied by a template literal: Error.prototype.toString
    for errors, a comma join for arrays. *)
Definition toString (v : value) : string :=
  match v with
  | Undefined => "undefined"
  | Str s => s
  | Arr xs => join "," xs
  | Err name message =>
      if String.eqb name "" then message
      else if String.eqb message "" then name
      else name ++ ": " ++ message
  end.

(** [ToBoolean]: the test of [if (v)] and of [v || w]. *)
Definition truthy (v : value) : bool :=
  match v with
  | Undefined => false
  | Str s => negb (String.eqb s "")
  | Arr _ => true
  | Err _ _ => true
  end.

(** [new Error(message)]. *)
Definition newError (message : string) : value := Err "Error" message.

(** [a || b] on values. *)
Definition or (a b : value) : value := if truthy a then a else b.

(** [hay.includes(needle)]. *)
Fixpoint includes (hay needle : string) : bool :=
  String.prefix needle hay
  || match hay with
     | EmptyString => false
     | String _ rest => includes rest needle
     end.

Definition Contains (hay needle : string) : Prop :=
  exists pre post, hay = pre ++ needle ++ post.

End Js.

(** ** Command line *)

Module Cli.

Definition defaultServerUrl : string := "http://localhost:3000/mcp".

(** [process.argv.slice(2)]. *)
Definition args (argv : list string) : list string := skipn 2 argv.

(** [args[0]]: out of range yields [undefined]. *)
Definition arg0 (a : list string) : Js.value :=
  match a with
  | [] => Js.Undefined
  | x :: _ => Js.Str x
  end.

(** [const serverUrl = args[0] || 'http://localhost:3000/mcp']. *)
Definition serverUrl (argv : list string) : string :=
  Js.toString (Js.or (arg0 (args argv)) (Js.Str defaultServerUrl)).

End Cli.

(** ** Transport negotiation *)

Module Negotiator.

Inductive transportKind : Type := StreamableHttp | Sse.

Definition kind_eqb (a b : transportKind) : bool :=
  match a, b with
  | StreamableHttp, StreamableHttp | Sse, Sse => true
  | _, _ => false
  end.

(** Objects are identified by the order of their allocation. *)
Record URL : Type := { url_id : nat; href : string }.

Record Transport : Type :=
  { t_id : nat;
    t_kind : transportKind;
    t_url : URL;
    t_authProvider : option nat }.

(** What the function does to the outside, in the order it happens. The
    handler installed on the first client ([SetOnError]) is run by the
    Client, not by this function: the console.error calls of its runs
    are not events of the trace. *)
Inductive event : Type :=
| NewClient (id : nat) (name version : string)
| SetOnError (client : nat)
| NewURL (u : URL)
| NewProvider (id : nat) (redirectUrl : string) (redirect_uris : list string)
| NewTransport (t : Transport)
| ConnectStart (client : nat) (t : Transport)
| ConnectResolved (client : nat) (t : Transport)
| ConnectRejected (client : nat) (t : Transport) (reason : Js.value)
| ConsoleLog (line : string)
| ConsoleError (line : string).

(** The collaborators the example imports: the URL constructor, which
    throws on an invalid input, and [Client.connect], whose outcome is
    decided by the server on the other end. *)
Record World : Type :=
  { parseUrl : string -> option string;
    connectOutcome : transportKind -> string -> option Js.value }.

Record state : Type := { next_id : nat; trace : list event }.

Definition init : state := {| next_id := 0; trace := [] |}.

Inductive result (A : Type) : Type :=
| Returned (a : A)
| Thrown (e : Js.value).
Arguments Returned {A} a.
Arguments Thrown {A} e.

(** An async function body: state passing with exceptions. Every [await]
    of the source awaits a promise that settles, so awaiting is
    sequencing. *)
Definition M (A : Type) : Type := state -> result A * state.

Definition ret {A} (a : A) : M A := fun s => (Returned a, s).

Definition throw {A} (e : Js.value) : M A := fun s => (Thrown e, s).

Definition bind {A B} (c : M A) (k : A -> M B) : M B :=
  fun s =>
    match c s with
    | (Returned a, s') => k a s'
    | (Thrown e, s') => (Thrown e, s')
    end.

Definition tryCatch {A} (body : M A) (handler : Js.value -> M A) : M A :=
  fun s =>
    match body s with
    | (Returned a, s') => (Returned a, s')
    | (Thrown e, s') => handler e s'
    end.

Notation "x <- c ;; k" := (bind c (fun x => k))
  (at level 61, c at next level, right associativity).
Notation "c ;;; k" := (bind c (fun _ => k))
  (at level 61, right associativity).

Definition emit (e : event) : M unit :=
  fun s => (Returned tt, {| next_id := next_id s; trace := trace s ++ [e] |}).

Definition alloc : M nat :=
  fun s => (Returned (next_id s), {| next_id := S (next_id s); trace := trace s |}).

Definition consoleLog (line : string) : M unit := emit (ConsoleLog line).
Definition consoleError (line : string) : M unit := emit (ConsoleError line).

(** [new Client({ name, version })]. *)
Definition newClient (name version : string) : M nat :=
  id <- alloc ;; emit (NewClient id name version) ;;; ret id.

(** [new URL(url)]. *)
Definition newURL (w : World) (url : string) : M URL :=
  match parseUrl w url with
  | None => throw (Js.Err "TypeError" "Invalid URL")
  | Some h =>
      id <- alloc ;;
      let u := {| url_id := id; href := h |} in
      emit (NewURL u) ;;; ret u
  end.

(** [new InMemoryOAuthClientProvider(redirectUrl, metadata, onRedirect)];
    the callback it is given is [Broker.onRedirect] below. *)
Definition newProvider (redirectUrl : string) (redirect_uris : list string) : M nat :=
  id <- alloc ;; emit (NewProvider id redirectUrl redirect_uris) ;;; ret id.

(** [new StreamableHTTPClientTransport(url, { authProvider })] and
    [new SSEClientTransport(url)]. *)
Definition newTransport (k : transportKind) (u : URL) (auth : option nat) : M Transport :=
  id <- alloc ;;
  let t := {| t_id := id; t_kind := k; t_url := u; t_authProvider := auth |} in
  emit (NewTransport t) ;;; ret t.

(** [await client.connect(transport)]. *)
Definition connect (w : World) (client : nat) (t : Transport) : M unit :=
  emit (ConnectStart client t) ;;;
  match connectOutcome w (t_kind t) (href (t_url t)) with
  | None => emit (ConnectResolved client t)
  | Some reason => emit (ConnectRejected client t reason) ;;; throw reason
  end.

Record Connection : Type :=
  { client : nat;
    transport : Transport;
    transportType : string }.

Definition redirectUrl : string := "http://localhost:8090/callback".
Definition clientMetadata_redirect_uris : list string := ["http://localhost:8090/callback"].

Definition bothFailedLine (error sseError : Js.value) : string :=
  "Failed to connect with either transport method:" ++ Js.nl
  ++ "1. Streamable HTTP error: " ++ Js.toString error ++ Js.nl
  ++ "2. SSE error: " ++ Js.toString sseError.

Definition connectWithBackwardsCompatibility (w : World) (url : string) : M Connection :=
  consoleLog "1. Trying Streamable HTTP transport first..." ;;;
  client <- newClient "backwards-compatible-client" "1.0.0" ;;
  emit (SetOnError client) ;;;
  baseUrl <- newURL w url ;;
  tryCatch
    (provider <- newProvider redirectUrl clientMetadata_redirect_uris ;;
     streamableTransport <- newTransport StreamableHttp baseUrl (Some provider) ;;
     connect w client streamableTransport ;;;
     consoleLog "Successfully connected using modern Streamable HTTP transport." ;;;
     ret {| client := client;
            transport := streamableTransport;
            transportType := "streamable-http" |})
    (fun error =>
       consoleLog ("StreamableHttp transport connection failed: " ++ Js.toString error) ;;;
       consoleLog "2. Falling back to deprecated HTTP+SSE transport..." ;;;
       tryCatch
         (sseTransport <- newTransport Sse baseUrl None ;;
          sseClient <- newClient "backwards-compatible-client" "1.0.0" ;;
          connect w sseClient sseTransport ;;;
          consoleLog "Successfully connected using deprecated HTTP+SSE transport." ;;;
          ret {| client := sseClient;
                 transport := sseTransport;
                 transportType := "sse" |})
         (fun sseError =>
            consoleError (bothFailedLine error sseError) ;;;
            throw (Js.newError "Could not connect to server with any available transport"))).

(** Running the function from a fresh program state. *)
Definition negotiate (w : World) (url : string) : result Connection * list event :=
  let (r, s) := connectWithBackwardsCompatibility w url init in (r, trace s).

(** Observations on a trace. *)
Definition isConnectStart (k : transportKind) (e : event) : bool :=
  match e with
  | ConnectStart _ t => kind_eqb (t_kind t) k
  | _ => false
  end.

Definition isNewTransport (k : transportKind) (e : event) : bool :=
  match e with
  | NewTransport t => kind_eqb (t_kind t) k
  | _ => false
  end.

Definition isNewClient (id : nat) (e : event) : bool :=
  match e with
  | NewClient i _ _ => Nat.eqb i id
  | _ => false
  end.

Definition attempts (k : transportKind) (tr : list event) : nat :=
  length (filter (isConnectStart k) tr).

Definition constructions (k : transportKind) (tr : list event) : nat :=
  length (filter (isNewTransport k) tr).

(** The message of the error a rejected call carries, if it is an Error. *)
Definition thrownMessage {A} (r : result A) : option string :=
  match r with
  | Thrown (Js.Err _ m) => Some m
  | _ => None
  end.

(** Named pieces of a negotiation's trace, for a base URL that was
    accepted with serialization [h]. *)
Definition clientName : string := "backwards-compatible-client".

Definition baseUrlOf (h : string) : URL := {| url_id := 1; href := h |}.

Definition streamableTransportOf (h : string) : Transport :=
  {| t_id := 3; t_kind := StreamableHttp; t_url := baseUrlOf h; t_authProvider := Some 2 |}.

Definition sseTransportOf (h : string) : Transport :=
  {| t_id := 4; t_kind := Sse; t_url := baseUrlOf h; t_authProvider := None |}.

Definition modernAttempt (h : string) : list event :=
  [ConsoleLog "1. Trying Streamable HTTP transport first...";
   NewClient 0 clientName "1.0.0";
   SetOnError 0;
   NewURL (baseUrlOf h);
   NewProvider 2 redirectUrl clientMetadata_redirect_uris;
   NewTransport (streamableTransportOf h);
   ConnectStart 0 (streamableTransportOf h)].

Definition legacyAttempt (h : string) (error : Js.value) : list event :=
  [ConsoleLog ("StreamableHttp transport connection failed: " ++ Js.toString error);
   ConsoleLog "2. Falling back to deprecated HTTP+SSE transport...";
   NewTransport (sseTransportOf h);
   NewClient 5 clientName "1.0.0";
   ConnectStart 5 (sseTransportOf h)].

(** A server that refuses the modern handshake with a 404 and refuses the
    SSE stream as well, one that accepts the SSE stream, and one that
    accepts the modern handshake. *)
Definition refusingServer : World :=
  {| parseUrl := fun s => Some s;
     connectOutcome := fun k _ =>
       match k with
       | StreamableHttp => Some (Js.Err "Error" "Error POSTing to endpoint (HTTP 404)")
       | Sse => Some (Js.Err "SseError" "connect ECONNREFUSED")
       end |}.

Definition legacyServer : World :=
  {| parseUrl := fun s => Some s;
     connectOutcome := fun k _ =>
       match k with
       | StreamableHttp => Some (Js.Err "Error" "Error POSTing to endpoint (HTTP 404)")
       | Sse => None
       end |}.

Definition modernServer : World :=
  {| parseUrl := fun s => Some s;
     connectOutcome := fun _ _ => None |}.

Ltac unfold_negotiation :=
  unfold negotiate, connectWithBackwardsCompatibility, newURL.

Ltac run_negotiation :=
  cbv [bind tryCatch consoleLog consoleError emit alloc ret throw newClient
       newProvider newTransport connect init next_id trace t_kind t_url href app
       modernAttempt legacyAttempt streamableTransportOf sseTransportOf baseUrlOf
       clientName].

End Negotiator.


(** ** OAuth callback listener *)

Module Broker.

(** *** The part of node:url the handler relies on *)

(** The [query] object of [url.parse(s, true)]: property name to value. *)
Definition ParsedUrlQuery : Type := list (string * Js.value).

Fixpoint getProp (obj : ParsedUrlQuery) (key : string) : Js.value :=
  match obj with
  | [] => Js.Undefined
  | (k, v) :: rest => if String.eqb k key then v else getProp rest key
  end.

Fixpoint setProp (obj : ParsedUrlQuery) (key : string) (v : Js.value) : ParsedUrlQuery :=
  match obj with
  | [] => [(key, v)]
  | (k, w) :: rest =>
      if String.eqb k key then (k, v) :: rest else (k, w) :: setProp rest key v
  end.

(** querystring's [addKeyValue]: the first occurrence of a key stores a
    string, a repeated key turns the property into an array. *)
Definition addKeyValue (obj : ParsedUrlQuery) (key value : string) : ParsedUrlQuery :=
  match getProp obj key with
  | Js.Undefined => setProp obj key (Js.Str value)
  | Js.Str cur => setProp obj key (Js.Arr [cur; value])
  | Js.Arr cur => setProp obj key (Js.Arr (cur ++ [value]))
  | Js.Err _ _ => obj
  end.

Definition queryObject (pairs : list (string * string)) : ParsedUrlQuery :=
  fold_left (fun obj kv => addKeyValue obj (fst kv) (snd kv)) pairs [].

(** The values a key is given in a list of pairs, in order. *)
Definition valuesOf (key : string) (pairs : list (string * string)) : list string :=
  map snd (filter (fun kv => String.eqb (fst kv) key) pairs).

(** The property a key ends up with, from the values it was given. *)
Definition propertyOf (values : list string) : Js.value :=
  match values with
  | [] => Js.Undefined
  | [v] => Js.Str v
  | _ => Js.Arr values
  end.

(** A query string lexer for plain URLs: the text after the first [?]
    and before [#], cut at [&] and at the first [=]. It decodes neither
    percent escapes nor [+] and has no limit on the number of pairs, so
    it stands for node's parser only on URLs without them; it is used
    for concrete requests. *)
Fixpoint cutAt (c : ascii) (s : string) : string * option string :=
  match s with
  | EmptyString => (EmptyString, None)
  | String a rest =>
      if Ascii.eqb a c then (EmptyString, Some rest)
      else let (before, after) := cutAt c rest in (String a before, after)
  end.

Fixpoint splitOn (c : ascii) (s : string) : list string :=
  match s with
  | EmptyString => [EmptyString]
  | String a rest =>
      if Ascii.eqb a c then EmptyString :: splitOn c rest
      else match splitOn c rest with
           | [] => [String a EmptyString]
           | x :: xs => String a x :: xs
           end
  end.

Definition plainPairs (url : string) : list (string * string) :=
  match snd (cutAt "?" (fst (cutAt "#" url))) with
  | None => []
  | Some q =>
      map (fun seg =>
             let (k, v) := cutAt "=" seg in
             (k, match v with Some v => v | None => "" end))
          (filter (fun seg => negb (String.eqb seg "")) (splitOn "&" q))
  end.

(** *** The listener *)

Record IncomingMessage : Type := { req_url : option string }.

Record ServerResponse : Type :=
  { statusCode : nat;
    contentType : string;
    body : string }.

Inductive promise : Type :=
| Pending
| Fulfilled (v : Js.value)
| Rejected (e : Js.value).

(** A promise settles once; later calls of its [resolve] and [reject]
    are ignored. *)
Definition resolve (v : Js.value) (p : promise) : promise :=
  match p with Pending => Fulfilled v | _ => p end.

Definition reject (e : Js.value) (p : promise) : promise :=
  match p with Pending => Rejected e | _ => p end.

Inductive serverState : Type :=
| Binding (port : N)
| Listening (port : N)
| Closed.

Record state : Type :=
  { server : serverState;
    codePromise : promise;
    responses : list ServerResponse;
    timers : list N;
    spawned : list string;
    console : list string }.

Definition successPage : string := "
              <html>
                <body>
                  <h1>Authorization Successful</h1>
                  <p>You can close this window now.</p>
                  <script>window.close();</script>
                </body>
              </html>
            ".

Definition failurePage : string := "
              <html>
                <body>
                  <h1>Authorization Failed</h1>
                  <p>No authorization code was provided.</p>
                </body>
              </html>
            ".

Definition listenPort : N := 8090%N.

(** [process.platform === 'win32' ? 'start' :
     process.platform === 'darwin' ? 'open' : 'xdg-open']. *)
Definition openCommand (platform : string) : string :=
  if String.eqb platform "win32" then "start"
  else if String.eqb platform "darwin" then "open"
  else "xdg-open".

(** The string handed to [exec]. *)
Definition execLine (platform redirectUrl : string) : string :=
  openCommand platform ++ " " ++ Js.dquote ++ redirectUrl ++ Js.dquote.

(** What the event loop delivers to the listener. *)
Inductive event : Type :=
| ListenCallback
| Request (req : IncomingMessage)
| Elapse (ms : N)
| ChildProcessFailed (reason : Js.value).

Section Listener.

(** node:url's reading of a request URL into decoded key/value pairs,
    the platform of the process, and the authorization URL given to the
    callback (already a string: [redirectUrl.toString()]). *)
Variable parsePairs : string -> list (string * string).
Variable platform : string.
Variable redirectUrl : string.

(** The provider's callback up to [await codePromise]: the promise
    executor creates the server and asks it to listen. *)
Definition onRedirect : state :=
  {| server := Binding listenPort;
     codePromise := Pending;
     responses := [];
     timers := [];
     spawned := [];
     console := ["Opening browser to: " ++ redirectUrl] |}.

(** [parsedUrl.query.code] of [nurl.parse(req.url || '', true)]. *)
Definition queryCode (req : IncomingMessage) : Js.value :=
  let url := Js.toString (Js.or (match req_url req with
                                 | Some u => Js.Str u
                                 | None => Js.Undefined
                                 end) (Js.Str "")) in
  getProp (queryObject (parsePairs url)) "code".

(** The request handler given to [http.createServer]. *)
Definition requestListener (st : state) (req : IncomingMessage) : state :=
  let code := queryCode req in
  if Js.truthy code then
    {| server := server st;
       codePromise := resolve code (codePromise st);
       responses := responses st ++
         [{| statusCode := 200; contentType := "text/html"; body := successPage |}];
       timers := timers st ++ [1000%N];
       spawned := spawned st;
       console := console st |}
  else
    {| server := server st;
       codePromise := reject (Js.newError "No authorization code provided") (codePromise st);
       responses := responses st ++
         [{| statusCode := 400; contentType := "text/html"; body := failurePage |}];
       timers := timers st;
       spawned := spawned st;
       console := console st |}.

(** The callback of [server.listen(8090, ...)]. *)
Definition listenCallback (st : state) : state :=
  {| server := Listening listenPort;
     codePromise := codePromise st;
     responses := responses st;
     timers := timers st;
     spawned := spawned st ++ [execLine platform redirectUrl];
     console := console st ++ ["OAuth callback server started on http://localhost:8090"] |}.

(** [server.close()], run by the timers that fall due. *)
Definition elapse (ms : N) (st : state) : state :=
  {| server := if existsb (fun t => N.leb t ms) (timers st) then Closed else server st;
     codePromise := codePromise st;
     responses := responses st;
     timers := map (fun t => N.sub t ms) (filter (fun t => negb (N.leb t ms)) (timers st));
     spawned := spawned st;
     console := console st |}.

(** One turn of the event loop. A request reaches the handler only while
    the server is listening; [exec] was given no callback, so a failure
    of the launched command reaches no code of the example. [Request] is
    a request on a new connection: one sent on a connection that was
    open when [server.close()] ran is not modelled, nor is a listen that
    fails. *)
Definition step (st : state) (ev : event) : state :=
  match ev with
  | ListenCallback =>
      match server st with
      | Binding _ => listenCallback st
      | _ => st
      end
  | Request req =>
      match server st with
      | Listening _ => requestListener st req
      | _ => st
      end
  | Elapse ms => elapse ms st
  | ChildProcessFailed _ => st
  end.

Definition run (evs : list event) : state := fold_left step evs onRedirect.

(** [await codePromise; return codePromise]: the callback is suspended
    while the promise is pending, returns its value or throws its
    reason. *)
Definition callbackResult (st : state) : promise := codePromise st.

End Listener.

Definition isChildProcessFailed (ev : event) : bool :=
  match ev with
  | ChildProcessFailed _ => true
  | _ => false
  end.

End Broker.


(** ** The demo workflow *)

Module Demo.

(** The parts of the protocol's results that the example reads. *)
Record Tool : Type := { tool_name : string; tool_description : Js.value }.

Record ContentItem : Type := { item_type : string; item_text : string }.

Record CallToolResult : Type := { content : option (list ContentItem) }.

Record Notification : Type := { level : string; data : Js.value }.

Inductive params : Type :=
| NoParams
| ToolCall (name : string) (arguments : list (string * N)).

Record Request : Type := { method : string; req_params : params }.

(** The awaits of [main] at which the connected client can receive
    notifications. *)
Inductive suspension : Type :=
| AwaitListTools
| AwaitCallTool
| AwaitTimer
| AwaitClose.

Inductive event : Type :=
| Negotiation (e : Negotiator.event)
| ConsoleLog (line : string)
| ConsoleLogItem (line : string) (item : ContentItem)
| ConsoleErrorValue (label : string) (v : Js.value)
| SetNotificationHandler (client : nat)
| RequestSent (client : nat) (r : Request)
| SetTimeout (ms : N)
| TransportClose (t : Negotiator.Transport)
| ProcessExit (code : nat).

(** The other end: the server of the negotiation, its answers to the two
    requests (by client), the outcome of closing a transport, and the
    notifications it sends while the client is suspended. *)
Record World : Type :=
  { server : Negotiator.World;
    listToolsResult : nat -> Negotiator.result (list Tool);
    callToolResult : nat -> Negotiator.result CallToolResult;
    closeResult : Negotiator.Transport -> option Js.value;
    delivered : suspension -> list Notification }.

(** The trace so far and the clients that have a logging-message
    notification handler. *)
Record state : Type := { trace : list event; handlers : list nat }.

Definition init : state := {| trace := []; handlers := [] |}.

Inductive outcome (A : Type) : Type :=
| Done (a : A)
| Raised (e : Js.value)
| Exited (code : nat).
Arguments Done {A} a.
Arguments Raised {A} e.
Arguments Exited {A} code.

Definition P (A : Type) : Type := state -> outcome A * state.

Definition ret {A} (a : A) : P A := fun s => (Done a, s).

Definition raise {A} (e : Js.value) : P A := fun s => (Raised e, s).

Definition bind {A B} (c : P A) (k : A -> P B) : P B :=
  fun s =>
    match c s with
    | (Done a, s') => k a s'
    | (Raised e, s') => (Raised e, s')
    | (Exited code, s') => (Exited code, s')
    end.

(** [try { body } catch (error) { handler }], and [promise.catch]. *)
Definition tryCatch {A} (body : P A) (handler : Js.value -> P A) : P A :=
  fun s =>
    match body s with
    | (Raised e, s') => handler e s'
    | r => r
    end.

Notation "x <- c ;; k" := (bind c (fun x => k))
  (at level 61, c at next level, right associativity).
Notation "c ;;; k" := (bind c (fun _ => k))
  (at level 61, right associativity).

Definition emit (e : event) : P unit :=
  fun s => (Done tt, {| trace := trace s ++ [e]; handlers := handlers s |}).

Definition consoleLog (line : string) : P unit := emit (ConsoleLog line).

(** [process.exit(code)]: nothing of the program runs after it. *)
Definition processExit {A} (code : nat) : P A :=
  fun s => (Exited code, {| trace := trace s ++ [ProcessExit code]; handlers := handlers s |}).

(** [for (const x of xs) body(x)] and [xs.forEach(body)]. *)
Fixpoint forEach {A} (xs : list A) (body : A -> P unit) : P unit :=
  match xs with
  | [] => ret tt
  | x :: rest => body x ;;; forEach rest body
  end.

(** The handler of lines 49-51. *)
Definition notificationLine (n : Notification) : string :=
  "Notification: " ++ level n ++ " - " ++ Js.toString (data n).

Definition notificationHandler (n : Notification) : P unit :=
  consoleLog (notificationLine n).

(** [client.setNotificationHandler(LoggingMessageNotificationSchema, ...)]. *)
Definition setNotificationHandler (client : nat) : P unit :=
  fun s => (Done tt, {| trace := trace s ++ [SetNotificationHandler client];
                        handlers := client :: handlers s |}).

(** While the function is suspended, the notifications that arrive for a
    client go to its handler, if it has one. *)
Definition suspend (w : World) (client : nat) (at_ : suspension) : P unit :=
  fun s =>
    if existsb (Nat.eqb client) (handlers s)
    then forEach (delivered w at_) notificationHandler s
    else (Done tt, s).

(** [await client.request(request, schema)]. *)
Definition request {A} (w : World) (client : nat) (r : Request) (at_ : suspension)
    (response : Negotiator.result A) : P A :=
  emit (RequestSent client r) ;;;
  suspend w client at_ ;;;
  match response with
  | Negotiator.Returned a => ret a
  | Negotiator.Thrown e => raise e
  end.

Definition toolLine (tool : Tool) : string :=
  "  - " ++ tool_name tool ++ ": " ++ Js.toString (tool_description tool).

Definition listTools (w : World) (client : nat) : P unit :=
  tryCatch
    (let toolsRequest := {| method := "tools/list"; req_params := NoParams |} in
     tools <- request w client toolsRequest AwaitListTools (listToolsResult w client) ;;
     consoleLog "Available tools:" ;;;
     if Nat.eqb (length tools) 0 then consoleLog "  No tools available"
     else forEach tools (fun tool => consoleLog (toolLine tool)))
    (fun error => consoleLog ("Tools not supported by this server: " ++ Js.toString error)).

Definition startNotificationTool (w : World) (client : nat) : P unit :=
  tryCatch
    (let request_ :=
       {| method := "tools/call";
          req_params := ToolCall "start-notification-stream"
                          [("interval", 1000%N); ("count", 5%N)] |} in
     consoleLog "Calling notification tool..." ;;;
     result <- request w client request_ AwaitCallTool (callToolResult w client) ;;
     consoleLog "Tool result:" ;;;
     match content result with
     | None => ret tt
     | Some items =>
         forEach items (fun item =>
           if String.eqb (item_type item) "text"
           then consoleLog ("  " ++ item_text item)
           else emit (ConsoleLogItem ("  " ++ item_type item ++ " content:") item))
     end)
    (fun error => consoleLog ("Error calling notification tool: " ++ Js.toString error)).

(** [await connectWithBackwardsCompatibility(serverUrl)], with its trace
    made part of the program's. *)
Definition connectWithBackwardsCompatibility (w : World) (url : string)
    : P Negotiator.Connection :=
  fun s =>
    let (r, tr) := Negotiator.negotiate (server w) url in
    let s' := {| trace := trace s ++ map Negotiation tr; handlers := handlers s |} in
    match r with
    | Negotiator.Returned connection => (Done connection, s')
    | Negotiator.Thrown e => (Raised e, s')
    end.

(** [await new Promise(resolve => setTimeout(resolve, ms))]. *)
Definition sleep (w : World) (client : nat) (ms : N) : P unit :=
  emit (SetTimeout ms) ;;; suspend w client AwaitTimer.

(** [await transport.close()]. *)
Definition close (w : World) (client : nat) (t : Negotiator.Transport) : P unit :=
  emit (TransportClose t) ;;;
  suspend w client AwaitClose ;;;
  match closeResult w t with
  | None => ret tt
  | Some e => raise e
  end.

Definition main (w : World) (argv : list string) : P unit :=
  consoleLog "MCP Backwards Compatible Client" ;;;
  consoleLog "===============================" ;;;
  consoleLog ("Connecting to server at: " ++ Cli.serverUrl argv) ;;;
  tryCatch
    (connection <- connectWithBackwardsCompatibility w (Cli.serverUrl argv) ;;
     let client := Negotiator.client connection in
     let transport := Negotiator.transport connection in
     setNotificationHandler client ;;;
     consoleLog (Js.nl ++ "=== Listing Available Tools ===") ;;;
     listTools w client ;;;
     consoleLog (Js.nl ++ "=== Starting Notification Stream ===") ;;;
     startNotificationTool w client ;;;
     consoleLog (Js.nl ++ "=== Waiting for all notifications ===") ;;;
     sleep w client 5000 ;;;
     consoleLog (Js.nl ++ "=== Disconnecting ===") ;;;
     close w client transport ;;;
     consoleLog "Disconnected from MCP server")
    (fun error =>
       emit (ConsoleErrorValue "Error running client:" error) ;;;
       processExit 1).

(** [main().catch(...)], the last statement of the file. *)
Definition program (w : World) (argv : list string) : P unit :=
  tryCatch (main w argv)
    (fun error =>
       emit (ConsoleErrorValue "Error running MCP client:" error) ;;;
       processExit 1).

(** Observations on a trace. *)
Definition consoleLines (tr : list event) : list string :=
  flat_map (fun e => match e with
                     | ConsoleLog line => [line]
                     | ConsoleLogItem line _ => [line]
                     | _ => []
                     end) tr.

Definition requestsSent (tr : list event) : list (nat * Request) :=
  flat_map (fun e => match e with
                     | RequestSent c r => [(c, r)]
                     | _ => []
                     end) tr.

(** What the program asks of the connection, console output left out. *)
Definition isAction (e : event) : bool :=
  match e with
  | SetNotificationHandler _ | RequestSent _ _ | SetTimeout _
  | TransportClose _ | ProcessExit _ => true
  | _ => false
  end.

Definition actions (tr : list event) : list event := filter isAction tr.

Definition hasHandler (client : nat) (s : state) : bool :=
  existsb (Nat.eqb client) (handlers s).

Definition listToolsRequest : Request :=
  {| method := "tools/list"; req_params := NoParams |}.

Definition callToolRequest : Request :=
  {| method := "tools/call";
     req_params := ToolCall "start-notification-stream"
                     [("interval", 1000%N); ("count", 5%N)] |}.

Definition itemLine (item : ContentItem) : string :=
  if String.eqb (item_type item) "text" then "  " ++ item_text item
  else "  " ++ item_type item ++ " content:".

(** The events of the two helpers, for a client that has ([notify]) or has
    not a notification handler. *)
Definition notes (w : World) (notify : bool) (at_ : suspension) : list event :=
  if notify then map (fun n => ConsoleLog (notificationLine n)) (delivered w at_) else [].

Definition listToolsEvents (w : World) (client : nat) (notify : bool) : list event :=
  RequestSent client listToolsRequest ::
  notes w notify AwaitListTools ++
  match listToolsResult w client with
  | Negotiator.Returned [] =>
      [ConsoleLog "Available tools:"; ConsoleLog "  No tools available"]
  | Negotiator.Returned tools =>
      ConsoleLog "Available tools:" :: map (fun tool => ConsoleLog (toolLine tool)) tools
  | Negotiator.Thrown e =>
      [ConsoleLog ("Tools not supported by this server: " ++ Js.toString e)]
  end.

Definition itemEvent (item : ContentItem) : event :=
  if String.eqb (item_type item) "text" then ConsoleLog ("  " ++ item_text item)
  else ConsoleLogItem ("  " ++ item_type item ++ " content:") item.

Definition contentItems (r : CallToolResult) : list ContentItem :=
  match content r with
  | Some items => items
  | None => []
  end.

Definition callToolEvents (w : World) (client : nat) (notify : bool) : list event :=
  ConsoleLog "Calling notification tool..." ::
  RequestSent client callToolRequest ::
  notes w notify AwaitCallTool ++
  match callToolResult w client with
  | Negotiator.Returned r => ConsoleLog "Tool result:" :: map itemEvent (contentItems r)
  | Negotiator.Thrown e =>
      [ConsoleLog ("Error calling notification tool: " ++ Js.toString e)]
  end.

(** The three lines [main] starts with, and the events of its workflow
    once the negotiation has returned a connection. *)
Definition banner (argv : list string) : list event :=
  [ConsoleLog "MCP Backwards Compatible Client";
   ConsoleLog "===============================";
   ConsoleLog ("Connecting to server at: " ++ Cli.serverUrl argv)].

Definition closingEvents (w : World) (t : Negotiator.Transport) : list event :=
  match closeResult w t with
  | None => [ConsoleLog "Disconnected from MCP server"]
  | Some e => [ConsoleErrorValue "Error running client:" e; ProcessExit 1]
  end.

Definition workflowEvents (w : World) (connection : Negotiator.Connection) : list event :=
  let client := Negotiator.client connection in
  let transport := Negotiator.transport connection in
  ([SetNotificationHandler client;
    ConsoleLog (Js.nl ++ "=== Listing Available Tools ===")]
   ++ listToolsEvents w client true
   ++ [ConsoleLog (Js.nl ++ "=== Starting Notification Stream ===")]
   ++ callToolEvents w client true
   ++ [ConsoleLog (Js.nl ++ "=== Waiting for all notifications ===");
       SetTimeout 5000]
   ++ notes w true AwaitTimer
   ++ [ConsoleLog (Js.nl ++ "=== Disconnecting ===");
       TransportClose transport]
   ++ notes w true AwaitClose
   ++ closingEvents w transport)%list.

Definition extend (s : state) (evs : list event) : state :=
  {| trace := trace s ++ evs; handlers := handlers s |}.

End Demo.

(** ** Sample inputs *)

Module Samples.


Definition echoTool : Demo.Tool :=
  {| Demo.tool_name := "start-notification-stream";
     Demo.tool_description := Js.Str "Sends periodic notifications" |}.

Definition bareTool : Demo.Tool :=
  {| Demo.tool_name := "ping"; Demo.tool_description := Js.Undefined |}.

Definition textItem : Demo.ContentItem :=
  {| Demo.item_type := "text"; Demo.item_text := "Started sending notifications" |}.

Definition imageItem : Demo.ContentItem :=
  {| Demo.item_type := "image"; Demo.item_text := "" |}.

Definition info : Demo.Notification :=
  {| Demo.level := "info"; Demo.data := Js.Str "Periodic notification #1" |}.

(** A server that speaks the modern transport and answers both requests. *)
Definition demoWorld : Demo.World :=
  {| Demo.server := Negotiator.modernServer;
     Demo.listToolsResult := fun _ => Negotiator.Returned [echoTool; bareTool];
     Demo.callToolResult := fun _ =>
       Negotiator.Returned {| Demo.content := Some [textItem; imageItem] |};
     Demo.closeResult := fun _ => None;
     Demo.delivered := fun at_ =>
       match at_ with
       | Demo.AwaitCallTool => [info]
       | _ => []
       end |}.

(** A server that refuses both transports. *)
Definition deadWorld : Demo.World :=
  {| Demo.server := Negotiator.refusingServer;
     Demo.listToolsResult := fun _ => Negotiator.Thrown (Js.Err "Error" "Not connected");
     Demo.callToolResult := fun _ => Negotiator.Thrown (Js.Err "Error" "Not connected");
     Demo.closeResult := fun _ => None;
     Demo.delivered := fun _ => [] |}.

Definition argv : list string := ["node"; "client.js"].

Definition isListenCallback (ev : Broker.event) : bool :=
  match ev with
  | Broker.ListenCallback => true
  | _ => false
  end.

(** The time a list of delays adds up to. *)
Definition totalDelay (delays : list N) : N := fold_right N.add 0%N delays.

(** A response of the listener is one of its two pages. *)
Definition isStaticPage (r : Broker.ServerResponse) : Prop :=
  Broker.contentType r = "text/html"
  /\ ((Broker.statusCode r = 200 /\ Broker.body r = Broker.successPage)
      \/ (Broker.statusCode r = 400 /\ Broker.body r = Broker.failurePage)).

Definition codeRequest : Broker.IncomingMessage :=
  {| Broker.req_url := Some "/callback?code=abc123" |}.

Definition bareRequest : Broker.IncomingMessage :=
  {| Broker.req_url := Some "/callback" |}.

(** No event of a given shape occurs in an explicit trace. *)
Ltac not_in_trace :=
  let H := fresh in
  intro H; simpl in H;
  repeat (destruct H as [H|H]; [discriminate H |]); exact H.

End Samples.

(** ** The shell that [exec] hands its command line to *)

Module Shell.

(** POSIX sh, double quotes: every character between them stands for
    itself except the dollar sign, the backquote, the backslash and the
    double quote. *)
Definition specialInDoubleQuotes (c : ascii) : bool :=
  Ascii.eqb c "$" || Ascii.eqb c "`" || Ascii.eqb c "\" || Ascii.eqb c "034".

Fixpoint literalInDoubleQuotes (s : string) : bool :=
  match s with
  | EmptyString => true
  | String c rest => negb (specialInDoubleQuotes c) && literalInDoubleQuotes rest
  end.

(** An authorization URL as [URL.toString()] gives it: none of its
    characters is percent-encoded in a path. *)
Definition substitutingUrl : string :=
  "https://as.example/$(id)/authorize?response_type=code".

End Shell.

(** ** The console.log calls of the demo *)

Module DemoOutput.

(** The calls of console.log in a trace with their arguments: the string
    given first and, for a call with two arguments, the object given
    second. *)
Definition consoleCalls (tr : list Demo.event)
    : list (string * option Demo.ContentItem) :=
  flat_map (fun e => match e with
                     | Demo.ConsoleLog line => [(line, None)]
                     | Demo.ConsoleLogItem line item => [(line, Some item)]
                     | _ => []
                     end) tr.

Definition oneArgument (line : string) : string * option Demo.ContentItem :=
  (line, None).

(** The call that prints one content item. *)
Definition itemCall (item : Demo.ContentItem) : string * option Demo.ContentItem :=
  if String.eqb (Demo.item_type item) "text"
  then ("  " ++ Demo.item_text item, None)
  else ("  " ++ Demo.item_type item ++ " content:", Some item).

End DemoOutput.
(** * Properties *)

(** ** Strings *)

Module JsFacts.

Lemma prefix_iff_append (needle hay : string) :
  String.prefix needle hay = true <-> exists post, hay = needle ++ post.
Proof.
  revert hay. induction needle as [|c needle IH]; intros hay.
  - split; [intros _; now exists hay | intros _; now destruct hay].
  - destruct hay as [|d hay]; simpl.
    + split; [discriminate | intros [post H]; discriminate].
    + destruct (Ascii.ascii_dec c d) as [->|Hne].
      * rewrite IH. split; intros [post H]; exists post; congruence.
      * split; [discriminate | intros [post H]; congruence].
Qed.

Lemma includes_Contains (hay needle : string) :
  Js.includes hay needle = true <-> Js.Contains hay needle.
Proof.
  split.
  - induction hay as [|c hay IH]; cbn [Js.includes]; rewrite orb_true_iff.
    + intros [H|H]; [|discriminate].
      apply prefix_iff_append in H as [post ->]. now exists "", post.
    + intros [H|H].
      * apply prefix_iff_append in H as [post ->]. now exists "", post.
      * destruct (IH H) as (pre & post & ->). now exists (String c pre), post.
  - intros (pre & post & ->). induction pre as [|c pre IH].
    + change ("" ++ needle ++ post) with (needle ++ post).
      assert (P : String.prefix needle (needle ++ post) = true)
        by (apply prefix_iff_append; now exists post).
      destruct (needle ++ post); cbn [Js.includes]; now rewrite P.
    + change (String c pre ++ needle ++ post) with (String c (pre ++ needle ++ post)).
      cbn [Js.includes]. rewrite IH. apply orb_true_r.
Qed.

Lemma append_assoc (a b c : string) : (a ++ b) ++ c = a ++ b ++ c.
Proof. induction a as [|x a IH]; simpl; [reflexivity | now rewrite IH]. Qed.

Lemma append_empty_r (a : string) : a ++ "" = a.
Proof. induction a as [|x a IH]; simpl; [reflexivity | now rewrite IH]. Qed.

End JsFacts.

(** ** The server URL of the command line *)

Module CliSpec.

(** C10, as stated, fails: an explicit first argument that is the empty
    string is not used; the default replaces it. *)
Lemma empty_first_argument_is_replaced :
  Cli.serverUrl ["node"; "client.js"; ""] = "http://localhost:3000/mcp"
  /\ Cli.serverUrl ["node"; "client.js"; ""] <> "".
Proof. split; [reflexivity | discriminate]. Qed.

(** C10, amended: without a first argument, or with an empty one, the
    server URL is 'http://localhost:3000/mcp'; a non-empty first argument
    is the server URL, character for character. *)
Theorem serverUrl_default_or_first_argument :
  (forall exe script, Cli.serverUrl [exe; script] = "http://localhost:3000/mcp")
  /\ (forall exe script rest,
        Cli.serverUrl (exe :: script :: "" :: rest) = "http://localhost:3000/mcp")
  /\ (forall exe script c s rest,
        Cli.serverUrl (exe :: script :: String c s :: rest) = String c s).
Proof. repeat split. Qed.

End CliSpec.

(** ** Transport negotiation *)

Module NegotiatorSpec.
Import Negotiator.

(** The four ways a call can go, each with its whole trace. *)
Section Runs.

Variable w : World.
Variables url h : string.

Lemma negotiate_invalid_url :
  parseUrl w url = None ->
  negotiate w url =
    (Thrown (Js.Err "TypeError" "Invalid URL"),
     [ConsoleLog "1. Trying Streamable HTTP transport first...";
      NewClient 0 clientName "1.0.0";
      SetOnError 0]).
Proof. intros Hurl. unfold_negotiation. rewrite Hurl. reflexivity. Qed.

Lemma negotiate_modern_ok :
  parseUrl w url = Some h ->
  connectOutcome w StreamableHttp h = None ->
  negotiate w url =
    (Returned {| client := 0;
                 transport := streamableTransportOf h;
                 transportType := "streamable-http" |},
     (modernAttempt h ++
      [ConnectResolved 0 (streamableTransportOf h);
       ConsoleLog "Successfully connected using modern Streamable HTTP transport."])%list).
Proof.
  intros Hurl Hm. unfold_negotiation. rewrite Hurl. run_negotiation.
  rewrite Hm. reflexivity.
Qed.

Lemma negotiate_legacy_ok (error : Js.value) :
  parseUrl w url = Some h ->
  connectOutcome w StreamableHttp h = Some error ->
  connectOutcome w Sse h = None ->
  negotiate w url =
    (Returned {| client := 5;
                 transport := sseTransportOf h;
                 transportType := "sse" |},
     (modernAttempt h ++
      ConnectRejected 0 (streamableTransportOf h) error ::
      legacyAttempt h error ++
      [ConnectResolved 5 (sseTransportOf h);
       ConsoleLog "Successfully connected using deprecated HTTP+SSE transport."])%list).
Proof.
  intros Hurl Hm Hs. unfold_negotiation. rewrite Hurl. run_negotiation.
  rewrite Hm. rewrite Hs. reflexivity.
Qed.

Lemma negotiate_both_fail (error sseError : Js.value) :
  parseUrl w url = Some h ->
  connectOutcome w StreamableHttp h = Some error ->
  connectOutcome w Sse h = Some sseError ->
  negotiate w url =
    (Thrown (Js.newError "Could not connect to server with any available transport"),
     (modernAttempt h ++
      ConnectRejected 0 (streamableTransportOf h) error ::
      legacyAttempt h error ++
      [ConnectRejected 5 (sseTransportOf h) sseError;
       ConsoleError (bothFailedLine error sseError)])%list).
Proof.
  intros Hurl Hm Hs. unfold_negotiation. rewrite Hurl. run_negotiation.
  rewrite Hm. rewrite Hs. reflexivity.
Qed.

Lemma negotiate_starts_with_modern_attempt :
  parseUrl w url = Some h ->
  exists rest, snd (negotiate w url) = (modernAttempt h ++ rest)%list.
Proof.
  intros Hurl.
  destruct (connectOutcome w StreamableHttp h) as [error|] eqn:Hm;
    [destruct (connectOutcome w Sse h) as [sseError|] eqn:Hs |].
  - rewrite (negotiate_both_fail error sseError Hurl Hm Hs). now eexists.
  - rewrite (negotiate_legacy_ok error Hurl Hm Hs). now eexists.
  - rewrite (negotiate_modern_ok Hurl Hm). now eexists.
Qed.

End Runs.

(** C5: when the Streamable HTTP connect succeeds, the call returns the
    first client, the Streamable HTTP transport bound to the base URL and
    the transport type 'streamable-http', and no SSE transport is ever
    constructed or connected. *)
Theorem modern_success_never_touches_legacy (w : World) (url h : string) :
  parseUrl w url = Some h ->
  connectOutcome w StreamableHttp h = None ->
  exists conn,
    fst (negotiate w url) = Returned conn
    /\ transportType conn = "streamable-http"
    /\ t_kind (transport conn) = StreamableHttp
    /\ href (t_url (transport conn)) = h
    /\ In (ConnectResolved (client conn) (transport conn)) (snd (negotiate w url))
    /\ constructions Sse (snd (negotiate w url)) = 0
    /\ attempts Sse (snd (negotiate w url)) = 0.
Proof.
  intros Hurl Hm. rewrite (negotiate_modern_ok w url h Hurl Hm).
  eexists. repeat split. simpl. tauto.
Qed.

Lemma modern_success_never_touches_legacy_witness :
  parseUrl modernServer "http://localhost:3000/mcp" = Some "http://localhost:3000/mcp"
  /\ connectOutcome modernServer StreamableHttp "http://localhost:3000/mcp" = None
  /\ exists conn,
       fst (negotiate modernServer "http://localhost:3000/mcp") = Returned conn
       /\ transportType conn = "streamable-http"
       /\ t_kind (transport conn) = StreamableHttp
       /\ href (t_url (transport conn)) = "http://localhost:3000/mcp"
       /\ In (ConnectResolved (client conn) (transport conn))
            (snd (negotiate modernServer "http://localhost:3000/mcp"))
       /\ constructions Sse (snd (negotiate modernServer "http://localhost:3000/mcp")) = 0
       /\ attempts Sse (snd (negotiate modernServer "http://localhost:3000/mcp")) = 0.
Proof.
  split; [reflexivity | split; [reflexivity |]].
  apply (modern_success_never_touches_legacy modernServer
           "http://localhost:3000/mcp" "http://localhost:3000/mcp"); reflexivity.
Defined.

(** C4: whenever the Streamable HTTP connect is rejected, for whatever
    reason, the SSE connect is started exactly once, and its start comes
    after the rejection of the Streamable HTTP connect in the trace: no
    SSE connect is started before it. *)
Theorem legacy_attempted_once_after_modern_failure
    (w : World) (url h : string) (error : Js.value) :
  parseUrl w url = Some h ->
  connectOutcome w StreamableHttp h = Some error ->
  attempts Sse (snd (negotiate w url)) = 1
  /\ attempts StreamableHttp (snd (negotiate w url)) = 1
  /\ exists before after c t,
       snd (negotiate w url) = (before ++ ConnectRejected c t error :: after)%list
       /\ t_kind t = StreamableHttp
       /\ attempts Sse before = 0
       /\ attempts Sse after = 1.
Proof.
  intros Hurl Hm.
  destruct (connectOutcome w Sse h) as [sseError|] eqn:Hs.
  - rewrite (negotiate_both_fail w url h error sseError Hurl Hm Hs).
    repeat split.
    exists (modernAttempt h). eexists. exists 0, (streamableTransportOf h).
    repeat split.
  - rewrite (negotiate_legacy_ok w url h error Hurl Hm Hs).
    repeat split.
    exists (modernAttempt h). eexists. exists 0, (streamableTransportOf h).
    repeat split.
Qed.

Lemma legacy_attempted_once_after_modern_failure_witness :
  parseUrl refusingServer "http://localhost:3000/mcp" = Some "http://localhost:3000/mcp"
  /\ connectOutcome refusingServer StreamableHttp "http://localhost:3000/mcp"
     = Some (Js.Err "Error" "Error POSTing to endpoint (HTTP 404)")
  /\ attempts Sse (snd (negotiate refusingServer "http://localhost:3000/mcp")) = 1
  /\ attempts StreamableHttp (snd (negotiate refusingServer "http://localhost:3000/mcp")) = 1
  /\ exists before after c t,
       snd (negotiate refusingServer "http://localhost:3000/mcp")
       = (before ++ ConnectRejected c t
                      (Js.Err "Error" "Error POSTing to endpoint (HTTP 404)") :: after)%list
       /\ t_kind t = StreamableHttp
       /\ attempts Sse before = 0
       /\ attempts Sse after = 1.
Proof.
  split; [reflexivity | split; [reflexivity |]].
  apply (legacy_attempted_once_after_modern_failure refusingServer
           "http://localhost:3000/mcp" "http://localhost:3000/mcp"
           (Js.Err "Error" "Error POSTing to endpoint (HTTP 404)"));
    reflexivity.
Defined.

(** C6: when the Streamable HTTP connect is rejected and the SSE connect
    succeeds, the call returns transport type 'sse' with a client that is
    not the client of the first attempt and was constructed only after
    that attempt failed, on an SSE transport bound to the same URL object
    as the Streamable HTTP transport. *)
Theorem fallback_returns_fresh_sse_client
    (w : World) (url h : string) (error : Js.value) :
  parseUrl w url = Some h ->
  connectOutcome w StreamableHttp h = Some error ->
  connectOutcome w Sse h = None ->
  exists conn modernClient modernTransport before after,
    negotiate w url =
      (Returned conn,
       (before ++ ConnectRejected modernClient modernTransport error :: after)%list)
    /\ t_kind modernTransport = StreamableHttp
    /\ transportType conn = "sse"
    /\ t_kind (transport conn) = Sse
    /\ client conn <> modernClient
    /\ existsb (isNewClient (client conn)) before = false
    /\ existsb (isNewClient (client conn)) after = true
    /\ existsb (isNewClient modernClient) before = true
    /\ t_url (transport conn) = t_url modernTransport
    /\ href (t_url (transport conn)) = h
    /\ In (ConnectResolved (client conn) (transport conn)) after.
Proof.
  intros Hurl Hm Hs. rewrite (negotiate_legacy_ok w url h error Hurl Hm Hs).
  eexists. exists 0, (streamableTransportOf h), (modernAttempt h). eexists.
  split; [reflexivity |].
  repeat split; try discriminate. simpl. tauto.
Qed.

Lemma fallback_returns_fresh_sse_client_witness :
  parseUrl legacyServer "http://localhost:3000/mcp" = Some "http://localhost:3000/mcp"
  /\ connectOutcome legacyServer StreamableHttp "http://localhost:3000/mcp"
     = Some (Js.Err "Error" "Error POSTing to endpoint (HTTP 404)")
  /\ connectOutcome legacyServer Sse "http://localhost:3000/mcp" = None
  /\ exists conn modernClient modernTransport before after,
       negotiate legacyServer "http://localhost:3000/mcp" =
         (Returned conn,
          (before ++ ConnectRejected modernClient modernTransport
                       (Js.Err "Error" "Error POSTing to endpoint (HTTP 404)")
                  :: after)%list)
       /\ t_kind modernTransport = StreamableHttp
       /\ transportType conn = "sse"
       /\ t_kind (transport conn) = Sse
       /\ client conn <> modernClient
       /\ existsb (isNewClient (client conn)) before = false
       /\ existsb (isNewClient (client conn)) after = true
       /\ existsb (isNewClient modernClient) before = true
       /\ t_url (transport conn) = t_url modernTransport
       /\ href (t_url (transport conn)) = "http://localhost:3000/mcp"
       /\ In (ConnectResolved (client conn) (transport conn)) after.
Proof.
  split; [reflexivity | split; [reflexivity | split; [reflexivity |]]].
  apply (fallback_returns_fresh_sse_client legacyServer
           "http://localhost:3000/mcp" "http://localhost:3000/mcp"
           (Js.Err "Error" "Error POSTing to endpoint (HTTP 404)"));
    reflexivity.
Defined.

(** C1, as stated, fails: against a server that refuses both transports
    the call is rejected with an error whose text holds neither the
    reason of the Streamable HTTP failure nor that of the SSE failure. *)
Lemma thrown_error_omits_both_reasons :
  connectOutcome refusingServer StreamableHttp "http://localhost:3000/mcp"
  = Some (Js.Err "Error" "Error POSTing to endpoint (HTTP 404)")
  /\ connectOutcome refusingServer Sse "http://localhost:3000/mcp"
     = Some (Js.Err "SseError" "connect ECONNREFUSED")
  /\ exists e,
       fst (negotiate refusingServer "http://localhost:3000/mcp") = Thrown e
       /\ Js.toString e = "Error: Could not connect to server with any available transport"
       /\ Js.includes (Js.toString e) "Error POSTing to endpoint (HTTP 404)" = false
       /\ Js.includes (Js.toString e) "connect ECONNREFUSED" = false.
Proof.
  split; [reflexivity | split; [reflexivity |]].
  eexists. split; [reflexivity |]. repeat split.
Qed.

(** C1, amended: when both connects are rejected, the last thing the call
    does before it rejects is to write one line to console.error that
    holds both reasons, each after the label of its transport
    ('1. Streamable HTTP error: ', '2. SSE error: '); the error it then
    throws is a new Error with the fixed message 'Could not connect to
    server with any available transport'. *)
Theorem both_failures_logged_then_fixed_error_thrown
    (w : World) (url h : string) (error sseError : Js.value) :
  parseUrl w url = Some h ->
  connectOutcome w StreamableHttp h = Some error ->
  connectOutcome w Sse h = Some sseError ->
  fst (negotiate w url)
  = Thrown (Js.Err "Error" "Could not connect to server with any available transport")
  /\ exists line,
       last (snd (negotiate w url)) (ConsoleLog "") = ConsoleError line
       /\ Js.Contains line ("1. Streamable HTTP error: " ++ Js.toString error)
       /\ Js.Contains line ("2. SSE error: " ++ Js.toString sseError).
Proof.
  intros Hurl Hm Hs. rewrite (negotiate_both_fail w url h error sseError Hurl Hm Hs).
  split; [reflexivity |].
  exists (bothFailedLine error sseError). split; [reflexivity |].
  unfold bothFailedLine. split.
  - exists ("Failed to connect with either transport method:" ++ Js.nl),
           (Js.nl ++ "2. SSE error: " ++ Js.toString sseError).
    now rewrite !JsFacts.append_assoc.
  - exists ("Failed to connect with either transport method:" ++ Js.nl
            ++ "1. Streamable HTTP error: " ++ Js.toString error ++ Js.nl), "".
    now rewrite !JsFacts.append_assoc, JsFacts.append_empty_r.
Qed.

Lemma both_failures_logged_then_fixed_error_thrown_witness :
  parseUrl refusingServer "http://localhost:3000/mcp" = Some "http://localhost:3000/mcp"
  /\ connectOutcome refusingServer StreamableHttp "http://localhost:3000/mcp"
     = Some (Js.Err "Error" "Error POSTing to endpoint (HTTP 404)")
  /\ connectOutcome refusingServer Sse "http://localhost:3000/mcp"
     = Some (Js.Err "SseError" "connect ECONNREFUSED")
  /\ fst (negotiate refusingServer "http://localhost:3000/mcp")
     = Thrown (Js.Err "Error" "Could not connect to server with any available transport")
  /\ exists line,
       last (snd (negotiate refusingServer "http://localhost:3000/mcp")) (ConsoleLog "")
       = ConsoleError line
       /\ Js.Contains line
            ("1. Streamable HTTP error: "
             ++ Js.toString (Js.Err "Error" "Error POSTing to endpoint (HTTP 404)"))
       /\ Js.Contains line
            ("2. SSE error: " ++ Js.toString (Js.Err "SseError" "connect ECONNREFUSED")).
Proof.
  split; [reflexivity | split; [reflexivity | split; [reflexivity |]]].
  apply (both_failures_logged_then_fixed_error_thrown refusingServer
           "http://localhost:3000/mcp" "http://localhost:3000/mcp");
    reflexivity.
Defined.

End NegotiatorSpec.

(** ** The OAuth callback listener *)

Module BrokerSpec.
Import Broker.

(** *** The query object *)

Lemma getProp_setProp (obj : ParsedUrlQuery) (k key : string) (v : Js.value) :
  getProp (setProp obj k v) key = if String.eqb k key then v else getProp obj key.
Proof.
  induction obj as [|[k' w] obj IH]; simpl.
  - reflexivity.
  - destruct (String.eqb k' k) eqn:Ek; simpl.
    + apply String.eqb_eq in Ek. subst k'.
      now destruct (String.eqb k key).
    + destruct (String.eqb k' key) eqn:Ekey.
      * apply String.eqb_eq in Ekey. subst k'.
        rewrite String.eqb_sym in Ek. now rewrite Ek.
      * exact IH.
Qed.

Lemma queryObject_snoc (pairs : list (string * string)) (k v : string) :
  queryObject (pairs ++ [(k, v)]) = addKeyValue (queryObject pairs) k v.
Proof. unfold queryObject. now rewrite fold_left_app. Qed.

Lemma valuesOf_snoc (key : string) (pairs : list (string * string)) (k v : string) :
  valuesOf key (pairs ++ [(k, v)])
  = (valuesOf key pairs ++ if String.eqb k key then [v] else [])%list.
Proof.
  unfold valuesOf. rewrite filter_app, map_app. simpl.
  now destruct (String.eqb k key).
Qed.

(** The property read back from the query object is decided by the
    values the key was given: none, one, or several. *)
Lemma getProp_queryObject (pairs : list (string * string)) (key : string) :
  getProp (queryObject pairs) key = propertyOf (valuesOf key pairs).
Proof.
  revert key. induction pairs as [|[k v] pairs IH] using rev_ind; intros key.
  - reflexivity.
  - rewrite queryObject_snoc, valuesOf_snoc. unfold addKeyValue.
    destruct (String.eqb k key) eqn:Ek.
    + apply String.eqb_eq in Ek. subst k. rewrite (IH key).
      destruct (valuesOf key pairs) as [|c1 [|c2 cs]]; simpl;
        rewrite getProp_setProp, String.eqb_refl; reflexivity.
    + rewrite app_nil_r, <- (IH key).
      destruct (getProp (queryObject pairs) k);
        rewrite ?getProp_setProp, ?Ek; reflexivity.
Qed.

Lemma truthy_propertyOf (values : list string) :
  Js.truthy (propertyOf values) = true
  <-> (exists v, values = [v] /\ v <> "") \/ 2 <= length values.
Proof.
  destruct values as [|v [|v' rest]]; simpl.
  - split; [discriminate | intros [(v & H & _)|H]; [discriminate | lia]].
  - rewrite negb_true_iff, String.eqb_neq. split.
    + intros H. left. now exists v.
    + intros [(v0 & H & Hne)|H]; [congruence | lia].
  - split; [intros _; right; lia | reflexivity].
Qed.

(** *** The event loop *)

Section Loop.

Variable parsePairs : string -> list (string * string).
Variables platform redirectUrl : string.

Lemma run_snoc (evs : list event) (ev : event) :
  run parsePairs platform redirectUrl (evs ++ [ev]) = (step parsePairs platform redirectUrl) (run parsePairs platform redirectUrl evs) ev.
Proof. unfold run. now rewrite fold_left_app. Qed.

(** A property of the start that every turn keeps holds after any
    sequence of events. *)
Lemma run_invariant (P : state -> Prop) :
  P (onRedirect redirectUrl) ->
  (forall st ev, P st -> P ((step parsePairs platform redirectUrl) st ev)) ->
  forall evs, P (run parsePairs platform redirectUrl evs).
Proof.
  intros H0 Hstep evs. induction evs as [|ev evs IH] using rev_ind.
  - exact H0.
  - rewrite run_snoc. now apply Hstep.
Qed.

Lemma fold_step_invariant (P : state -> Prop) :
  (forall st ev, P st -> P ((step parsePairs platform redirectUrl) st ev)) ->
  forall evs st, P st -> P (fold_left (step parsePairs platform redirectUrl) evs st).
Proof.
  intros Hstep evs. induction evs as [|ev evs IH]; intros st H; simpl.
  - exact H.
  - apply IH, Hstep, H.
Qed.

Lemma elapse_without_timers (ms : N) (st : state) :
  timers st = [] -> elapse ms st = st.
Proof. destruct st; simpl; intros ->; reflexivity. Qed.

Lemma elapses_without_timers (delays : list N) (st : state) :
  timers st = [] -> fold_left (step parsePairs platform redirectUrl) (map Elapse delays) st = st.
Proof.
  intros H. induction delays as [|ms delays IH]; simpl.
  - reflexivity.
  - now rewrite (elapse_without_timers ms st H).
Qed.

(** Once the listen callback has run it never runs again: nothing more is
    launched. *)
Lemma spawned_after_binding (evs : list event) (st : state) :
  (forall p, server st <> Binding p) ->
  spawned (fold_left (step parsePairs platform redirectUrl) evs st) = spawned st.
Proof.
  intros H.
  apply (fold_step_invariant
           (fun st' => (forall p, server st' <> Binding p) /\ spawned st' = spawned st));
    [| now split].
  clear. intros st' ev [Hs Hsp]. destruct ev as [|req|ms|reason]; simpl.
  - destruct (server st') eqn:E.
    + exfalso. now apply (Hs port).
    + split; [intros p; rewrite ?E; discriminate | exact Hsp].
    + split; [intros p; rewrite ?E; discriminate | exact Hsp].
  - destruct (server st') eqn:E;
      [exfalso; now apply (Hs port) | |
       split; [intros p; rewrite ?E; discriminate | exact Hsp]].
    unfold requestListener.
    destruct (Js.truthy _); simpl;
      (split; [intros p; rewrite ?E; discriminate | exact Hsp]).
  - split; [| exact Hsp].
    intros p. destruct (existsb _ _); [discriminate | apply Hs].
  - split; assumption.
Qed.

(** The state of the server after the first request, when that request
    carried a truthy code: the close is due 1000 ms later. *)
Lemma successful_request_closes_after_delay (req : IncomingMessage) (ms : N) :
  Js.truthy (queryCode parsePairs req) = true ->
  server (run parsePairs platform redirectUrl [ListenCallback; Request req; Elapse ms])
  = if (1000 <=? ms)%N then Closed else Listening listenPort.
Proof.
  intros H. unfold run. simpl. unfold requestListener. rewrite H. simpl.
  now rewrite orb_false_r.
Qed.

(** The first request, when the [code] key is not repeated in the query:
    resolved with the code when there is a non-empty one, rejected with a
    400 response otherwise. *)
Lemma first_request_with_single_code (req : IncomingMessage) (u : string) :
  req_url req = Some u ->
  length (valuesOf "code" (parsePairs u)) <= 1 ->
  let st := run parsePairs platform redirectUrl [ListenCallback; Request req] in
  (exists c, valuesOf "code" (parsePairs u) = [c] /\ c <> ""
             /\ callbackResult st = Fulfilled (Js.Str c)
             /\ map statusCode (responses st) = [200])
  \/ ((forall c, In c (valuesOf "code" (parsePairs u)) -> c = "")
      /\ callbackResult st = Rejected (Js.newError "No authorization code provided")
      /\ map statusCode (responses st) = [400]).
Proof.
  intros Hu Hlen. unfold run. simpl. unfold requestListener, queryCode.
  rewrite Hu. assert (Eu : Js.toString (Js.or (Js.Str u) (Js.Str "")) = u).
  { unfold Js.or. simpl. destruct u; reflexivity. }
  rewrite Eu, getProp_queryObject.
  destruct (valuesOf "code" (parsePairs u)) as [|c [|c' rest]]; simpl in *.
  - right. repeat split. intros c [].
  - destruct (String.eqb c "") eqn:Ec; simpl.
    + right. apply String.eqb_eq in Ec. repeat split. intros c0 [<-|[]]. exact Ec.
    + left. exists c. apply String.eqb_neq in Ec. repeat split; assumption.
  - lia.
Qed.

End Loop.

(** The two redirects of the specification's scenarios. *)
Example redirect_with_code_resolves (platform redirectUrl : string) :
  callbackResult
    (run plainPairs platform redirectUrl
       [ListenCallback; Request {| req_url := Some "/callback?code=abc123" |}])
  = Fulfilled (Js.Str "abc123").
Proof. reflexivity. Qed.

Example redirect_without_query_rejects (platform redirectUrl : string) :
  callbackResult
    (run plainPairs platform redirectUrl
       [ListenCallback; Request {| req_url := Some "/callback" |}])
  = Rejected (Js.newError "No authorization code provided")
  /\ map statusCode
       (responses
          (run plainPairs platform redirectUrl
             [ListenCallback; Request {| req_url := Some "/callback" |}]))
     = [400].
Proof. split; reflexivity. Qed.

(** C2, at the input where the code departs from it: the redirect
    'GET /callback?code=&code=' carries no non-empty [code] parameter, yet
    the query object holds the array of the two empty values, which is
    truthy: the listener answers 200 and the pending result is resolved
    with that array instead of being rejected. *)
Theorem repeated_empty_code_is_resolved (platform redirectUrl : string) :
  valuesOf "code" (plainPairs "/callback?code=&code=") = [""; ""]
  /\ queryCode plainPairs {| req_url := Some "/callback?code=&code=" |} = Js.Arr [""; ""]
  /\ callbackResult
       (run plainPairs platform redirectUrl
          [ListenCallback; Request {| req_url := Some "/callback?code=&code=" |}])
     = Fulfilled (Js.Arr [""; ""])
  /\ map statusCode
       (responses
          (run plainPairs platform redirectUrl
             [ListenCallback; Request {| req_url := Some "/callback?code=&code=" |}]))
     = [200].
Proof. repeat split. Qed.

(** C3, at the input where the code departs from it: after the redirect
    'GET /callback' (no code) has been answered with 400 and the pending
    result rejected, no close is scheduled; however much time passes the
    server is still listening on 8090, and a second request is handled
    like the first. *)
Theorem listener_stays_open_after_rejected_request
    (platform redirectUrl : string) (delays : list N) :
  callbackResult
    (run plainPairs platform redirectUrl
       (ListenCallback :: Request {| req_url := Some "/callback" |} :: map Elapse delays))
  = Rejected (Js.newError "No authorization code provided")
  /\ server
       (run plainPairs platform redirectUrl
          (ListenCallback :: Request {| req_url := Some "/callback" |} :: map Elapse delays))
     = Listening 8090
  /\ timers
       (run plainPairs platform redirectUrl
          (ListenCallback :: Request {| req_url := Some "/callback" |} :: map Elapse delays))
     = []
  /\ map statusCode
       (responses
          (run plainPairs platform redirectUrl
             (ListenCallback :: Request {| req_url := Some "/callback" |}
                :: map Elapse delays ++ [Request {| req_url := Some "/callback" |}])))
     = [400; 400].
Proof.
  unfold run. cbn [fold_left]. rewrite fold_left_app.
  rewrite elapses_without_timers by reflexivity.
  repeat split.
Qed.

(** C7: a failure of the launched command changes nothing: the listener
    state and the pending result are the same with and without it, so
    after the launch the callback is waiting on a listening server
    whether or not the command failed, and the only reason the pending
    result is ever rejected with is the missing code. *)
Theorem launch_failure_never_surfaces
    (parsePairs : string -> list (string * string)) (platform redirectUrl : string) :
  (forall st reason,
     step parsePairs platform redirectUrl st (ChildProcessFailed reason) = st)
  /\ (forall evs,
        run parsePairs platform redirectUrl
          (filter (fun ev => negb (isChildProcessFailed ev)) evs)
        = run parsePairs platform redirectUrl evs)
  /\ (forall reason,
        server (run parsePairs platform redirectUrl
                  [ListenCallback; ChildProcessFailed reason]) = Listening listenPort
        /\ callbackResult (run parsePairs platform redirectUrl
                             [ListenCallback; ChildProcessFailed reason]) = Pending)
  /\ (forall evs,
        match callbackResult (run parsePairs platform redirectUrl evs) with
        | Rejected e => e = Js.newError "No authorization code provided"
        | _ => True
        end).
Proof.
  split; [reflexivity |]. split; [| split; [now split |]].
  - intros evs. unfold run. generalize (onRedirect redirectUrl).
    induction evs as [|ev evs IH]; intros st; simpl.
    + reflexivity.
    + destruct ev; simpl; apply IH.
  - intros evs.
    apply (run_invariant parsePairs platform redirectUrl
             (fun st => match callbackResult st with
                        | Rejected e => e = Js.newError "No authorization code provided"
                        | _ => True
                        end)); [exact I |].
    clear evs. intros st ev H. unfold callbackResult in *.
    destruct ev as [|req|ms|reason]; simpl; try exact H.
    + now destruct (server st).
    + destruct (server st); try exact H.
      unfold requestListener.
      destruct (Js.truthy _); simpl; destruct (codePromise st); simpl; auto.
Qed.

(** The command line given to [exec]: the command is 'start' on win32,
    'open' on darwin and 'xdg-open' on any other platform, and whatever
    happens after the listen callback the one line launched is that
    command, a space, and the authorization URL between double quotes. *)
Theorem browser_launch_command
    (parsePairs : string -> list (string * string)) (platform redirectUrl : string) :
  (platform = "win32" -> openCommand platform = "start")
  /\ (platform = "darwin" -> openCommand platform = "open")
  /\ (platform <> "win32" -> platform <> "darwin" -> openCommand platform = "xdg-open")
  /\ (forall evs,
        spawned (run parsePairs platform redirectUrl (ListenCallback :: evs))
        = [openCommand platform ++ " " ++ Js.dquote ++ redirectUrl ++ Js.dquote]).
Proof.
  repeat split.
  - now intros ->.
  - now intros ->.
  - intros Hw Hd. unfold openCommand.
    apply String.eqb_neq in Hw, Hd. now rewrite Hw, Hd.
  - intros evs. unfold run. cbn [fold_left].
    rewrite spawned_after_binding; [reflexivity | discriminate].
Qed.

Lemma browser_launch_command_witness :
  ("linux" <> "win32" /\ "linux" <> "darwin")
  /\ openCommand "linux" = "xdg-open"
  /\ openCommand "win32" = "start"
  /\ openCommand "darwin" = "open"
  /\ spawned (run plainPairs "linux" "https://auth.example/authorize"
                [ListenCallback; Request {| req_url := Some "/callback?code=abc123" |}])
     = ["xdg-open " ++ Js.dquote ++ "https://auth.example/authorize" ++ Js.dquote].
Proof.
  split; [split; discriminate |].
  split; [| split; [| split]].
  - apply (browser_launch_command plainPairs "linux" "https://auth.example/authorize");
      discriminate.
  - now apply (browser_launch_command plainPairs "win32" "https://auth.example/authorize").
  - now apply (browser_launch_command plainPairs "darwin" "https://auth.example/authorize").
  - apply (browser_launch_command plainPairs "linux" "https://auth.example/authorize").
Defined.

(** C8, at the input where the code departs from it: for the
    authorization URL 'https://as.example/$(id)/authorize?response_type=code'
    the line given to [exec] holds the URL unchanged between the double
    quotes, and the URL has characters that a shell does not take
    literally there: '$(' starts a command substitution. The launched
    command is then not given the authorization URL as its argument. *)
Theorem launch_line_leaves_shell_syntax_unquoted
    (parsePairs : string -> list (string * string)) (platform : string)
    (evs : list event) :
  spawned (run parsePairs platform Shell.substitutingUrl (ListenCallback :: evs))
  = [openCommand platform ++ " " ++ Js.dquote
     ++ "https://as.example/$(id)/authorize?response_type=code" ++ Js.dquote]
  /\ Shell.literalInDoubleQuotes Shell.substitutingUrl = false
  /\ Js.includes Shell.substitutingUrl "$(" = true.
Proof.
  split; [| split; reflexivity].
  unfold run. cbn [fold_left].
  rewrite spawned_after_binding; [reflexivity | discriminate].
Qed.

(** C9: the server is only ever bound to port 8090, and 8090 is the
    port of the redirect URI 'http://localhost:8090/callback' that the
    negotiation gives the OAuth provider, both as its redirect URL and as
    the one entry of its metadata's redirect_uris. *)
Theorem listener_port_matches_redirect_uri :
  listenPort = 8090%N
  /\ (forall parsePairs platform redirectUrl evs,
        match server (run parsePairs platform redirectUrl evs) with
        | Binding p | Listening p => p = 8090%N
        | Closed => True
        end)
  /\ Negotiator.redirectUrl
     = "http://localhost:" ++ NilZero.string_of_uint (N.to_uint listenPort) ++ "/callback"
  /\ (forall w url h,
        Negotiator.parseUrl w url = Some h ->
        In (Negotiator.NewProvider 2 "http://localhost:8090/callback"
              ["http://localhost:8090/callback"])
           (snd (Negotiator.negotiate w url))).
Proof.
  split; [reflexivity |]. split; [| split; [reflexivity |]].
  - intros parsePairs platform redirectUrl evs.
    apply (run_invariant parsePairs platform redirectUrl
             (fun st => match server st with
                        | Binding p | Listening p => p = 8090%N
                        | Closed => True
                        end)); [reflexivity |].
    clear evs. intros st ev H. destruct ev as [|req|ms|reason]; simpl; try exact H.
    + destruct (server st) eqn:E; simpl; rewrite ?E; auto.
    + destruct (server st) eqn:E; simpl; rewrite ?E; auto.
      unfold requestListener. destruct (Js.truthy _); simpl; now rewrite E.
    + now destruct (existsb _ _).
  - intros w url h Hurl.
    destruct (NegotiatorSpec.negotiate_starts_with_modern_attempt w url h Hurl)
      as [rest ->].
    apply in_or_app. left. simpl. tauto.
Qed.

Lemma listener_port_matches_redirect_uri_witness :
  Negotiator.parseUrl Negotiator.modernServer "http://localhost:3000/mcp"
  = Some "http://localhost:3000/mcp"
  /\ In (Negotiator.NewProvider 2 "http://localhost:8090/callback"
           ["http://localhost:8090/callback"])
        (snd (Negotiator.negotiate Negotiator.modernServer "http://localhost:3000/mcp"))
  /\ server (run plainPairs "linux" "https://auth.example/authorize" [ListenCallback])
     = Listening 8090.
Proof.
  split; [reflexivity | split; [| reflexivity]].
  apply (proj2 (proj2 (proj2 listener_port_matches_redirect_uri))
           Negotiator.modernServer "http://localhost:3000/mcp" "http://localhost:3000/mcp").
  reflexivity.
Defined.

End BrokerSpec.

(** * Further properties *)

(** ** The command line and the negotiation *)

Module NegotiatorExtra.
Import Negotiator.

(** X1: whatever the command line, the server URL given to the
    negotiation is not the empty string. *)
Theorem serverUrl_is_never_empty (argv : list string) :
  Cli.serverUrl argv <> "".
Proof.
  destruct argv as [|exe [|script [|[|c a] rest]]]; discriminate.
Qed.

(** Every call goes one of four ways. *)
Lemma negotiate_cases (w : World) (url : string) :
  (parseUrl w url = None
   /\ negotiate w url =
        (Thrown (Js.Err "TypeError" "Invalid URL"),
         [ConsoleLog "1. Trying Streamable HTTP transport first...";
          NewClient 0 clientName "1.0.0";
          SetOnError 0]))
  \/ exists h,
       parseUrl w url = Some h
       /\ ((connectOutcome w StreamableHttp h = None
            /\ negotiate w url =
                 (Returned {| client := 0;
                              transport := streamableTransportOf h;
                              transportType := "streamable-http" |},
                  (modernAttempt h ++
                   [ConnectResolved 0 (streamableTransportOf h);
                    ConsoleLog "Successfully connected using modern Streamable HTTP transport."])%list))
           \/ exists error,
                connectOutcome w StreamableHttp h = Some error
                /\ ((connectOutcome w Sse h = None
                     /\ negotiate w url =
                          (Returned {| client := 5;
                                       transport := sseTransportOf h;
                                       transportType := "sse" |},
                           (modernAttempt h ++
                            ConnectRejected 0 (streamableTransportOf h) error ::
                            legacyAttempt h error ++
                            [ConnectResolved 5 (sseTransportOf h);
                             ConsoleLog "Successfully connected using deprecated HTTP+SSE transport."])%list))
                    \/ exists sseError,
                         connectOutcome w Sse h = Some sseError
                         /\ negotiate w url =
                              (Thrown (Js.newError
                                 "Could not connect to server with any available transport"),
                               (modernAttempt h ++
                                ConnectRejected 0 (streamableTransportOf h) error ::
                                legacyAttempt h error ++
                                [ConnectRejected 5 (sseTransportOf h) sseError;
                                 ConsoleError (bothFailedLine error sseError)])%list))).
Proof.
  destruct (parseUrl w url) as [h|] eqn:Hurl.
  - right. exists h. split; [reflexivity |].
    destruct (connectOutcome w StreamableHttp h) as [error|] eqn:Hm.
    + right. exists error. split; [reflexivity |].
      destruct (connectOutcome w Sse h) as [sseError|] eqn:Hs.
      * right. exists sseError. split; [reflexivity |].
        now apply NegotiatorSpec.negotiate_both_fail.
      * left. split; [reflexivity |]. now apply NegotiatorSpec.negotiate_legacy_ok.
    + left. split; [reflexivity |]. now apply NegotiatorSpec.negotiate_modern_ok.
  - left. split; [reflexivity |]. now apply NegotiatorSpec.negotiate_invalid_url.
Qed.



(** X3: against any server a call connects each transport at most once,
    tries SSE only if it tried Streamable HTTP, and connects every
    transport it constructs. *)
Theorem at_most_one_attempt_per_transport (w : World) (url : string) :
  attempts StreamableHttp (snd (negotiate w url)) <= 1
  /\ attempts Sse (snd (negotiate w url)) <= attempts StreamableHttp (snd (negotiate w url))
  /\ constructions StreamableHttp (snd (negotiate w url))
     = attempts StreamableHttp (snd (negotiate w url))
  /\ constructions Sse (snd (negotiate w url)) = attempts Sse (snd (negotiate w url)).
Proof.
  destruct (negotiate_cases w url)
    as [[Hurl Hrun]
       |(h & Hurl & [[Hm Hrun]
                    |(error & Hm & [[Hs Hrun]|(sseError & Hs & Hrun)])])];
    rewrite Hrun; clear Hrun; cbn; repeat split; lia.
Qed.

(** X4: a call returns exactly when one of its connects resolved, and
    what it returns is the client and transport of that connect, with the
    transport type that names the transport's kind, on the URL parsed
    from the argument. *)
Theorem returns_exactly_the_connected_pair (w : World) (url : string) :
  match fst (negotiate w url) with
  | Returned conn =>
      In (ConnectResolved (client conn) (transport conn)) (snd (negotiate w url))
      /\ transportType conn
         = match t_kind (transport conn) with
           | StreamableHttp => "streamable-http"
           | Sse => "sse"
           end
      /\ parseUrl w url = Some (href (t_url (transport conn)))
      /\ connectOutcome w (t_kind (transport conn)) (href (t_url (transport conn))) = None
  | Thrown _ => forall c t, ~ In (ConnectResolved c t) (snd (negotiate w url))
  end.
Proof.
  destruct (negotiate_cases w url)
    as [[Hurl Hrun]
       |(h & Hurl & [[Hm Hrun]
                    |(error & Hm & [[Hs Hrun]|(sseError & Hs & Hrun)])])];
    rewrite Hrun; clear Hrun; cbn [fst snd].
  - intros c t. Samples.not_in_trace.
  - repeat split; try assumption. simpl. tauto.
  - repeat split; try assumption. simpl. tauto.
  - intros c t. Samples.not_in_trace.
Qed.

(** X5: the caller never sees the reason of a failed connect. A call is
    rejected with one of two errors only: the TypeError of an invalid
    URL, or the fixed 'Could not connect' Error, and that one exactly
    when both connects were rejected, after the line with both reasons
    was written to console.error. *)
Theorem caller_sees_only_two_errors (w : World) (url : string) (e : Js.value) :
  fst (negotiate w url) = Thrown e ->
  (e = Js.Err "TypeError" "Invalid URL" /\ parseUrl w url = None)
  \/ (e = Js.newError "Could not connect to server with any available transport"
      /\ exists h error sseError,
           parseUrl w url = Some h
           /\ connectOutcome w StreamableHttp h = Some error
           /\ connectOutcome w Sse h = Some sseError
           /\ In (ConsoleError (bothFailedLine error sseError)) (snd (negotiate w url))).
Proof.
  destruct (negotiate_cases w url)
    as [[Hurl Hrun]
       |(h & Hurl & [[Hm Hrun]
                    |(error & Hm & [[Hs Hrun]|(sseError & Hs & Hrun)])])];
    rewrite Hrun; clear Hrun; cbn [fst snd]; intros H.
  - left. split; [congruence | assumption].
  - discriminate H.
  - discriminate H.
  - right. split; [congruence |]. exists h, error, sseError.
    repeat split; try assumption. simpl. tauto.
Qed.

Lemma caller_sees_only_two_errors_witness :
  fst (negotiate refusingServer "http://localhost:3000/mcp")
  = Thrown (Js.newError "Could not connect to server with any available transport")
  /\ ((Js.newError "Could not connect to server with any available transport"
       = Js.Err "TypeError" "Invalid URL"
       /\ parseUrl refusingServer "http://localhost:3000/mcp" = None)
      \/ (Js.newError "Could not connect to server with any available transport"
          = Js.newError "Could not connect to server with any available transport"
          /\ exists h error sseError,
               parseUrl refusingServer "http://localhost:3000/mcp" = Some h
               /\ connectOutcome refusingServer StreamableHttp h = Some error
               /\ connectOutcome refusingServer Sse h = Some sseError
               /\ In (ConsoleError (bothFailedLine error sseError))
                    (snd (negotiate refusingServer "http://localhost:3000/mcp")))).
Proof.
  split; [reflexivity |].
  apply (caller_sees_only_two_errors refusingServer "http://localhost:3000/mcp").
  reflexivity.
Defined.

(** X6: the OAuth provider goes to the Streamable HTTP transport only:
    of the transports a call constructs, the SSE transport is the one
    without an auth provider, and all of them are bound to the URL parsed
    from the argument. *)
Theorem only_the_modern_transport_carries_auth (w : World) (url : string) :
  Forall (fun e =>
            match e with
            | NewTransport t =>
                (t_kind t = Sse <-> t_authProvider t = None)
                /\ parseUrl w url = Some (href (t_url t))
            | _ => True
            end)
         (snd (negotiate w url)).
Proof.
  destruct (negotiate_cases w url)
    as [[Hurl Hrun]
       |(h & Hurl & [[Hm Hrun]
                    |(error & Hm & [[Hs Hrun]|(sseError & Hs & Hrun)])])];
    rewrite Hrun; clear Hrun; cbn [fst snd];
    repeat (apply Forall_cons || apply Forall_nil);
    try exact I; (split; [split; discriminate || reflexivity | assumption]).
Qed.

(** X22: whenever the Streamable HTTP connect is rejected, its reason is
    printed with console.log ('StreamableHttp transport connection
    failed: ...') and the fallback is announced, both before the SSE
    transport is constructed, whether or not the fallback then
    succeeds. *)
Theorem modern_failure_reason_is_printed
    (w : World) (url h : string) (error : Js.value) :
  parseUrl w url = Some h ->
  connectOutcome w StreamableHttp h = Some error ->
  exists before after,
    snd (negotiate w url)
    = (before
       ++ ConsoleLog ("StreamableHttp transport connection failed: " ++ Js.toString error)
       :: ConsoleLog "2. Falling back to deprecated HTTP+SSE transport..."
       :: after)%list
    /\ constructions Sse before = 0
    /\ constructions Sse after = 1.
Proof.
  intros Hurl Hm.
  destruct (connectOutcome w Sse h) as [sseError|] eqn:Hs.
  - rewrite (NegotiatorSpec.negotiate_both_fail w url h error sseError Hurl Hm Hs).
    exists (modernAttempt h ++ [ConnectRejected 0 (streamableTransportOf h) error])%list.
    eexists. split; [now rewrite <- app_assoc | now split].
  - rewrite (NegotiatorSpec.negotiate_legacy_ok w url h error Hurl Hm Hs).
    exists (modernAttempt h ++ [ConnectRejected 0 (streamableTransportOf h) error])%list.
    eexists. split; [now rewrite <- app_assoc | now split].
Qed.

Lemma modern_failure_reason_is_printed_witness :
  parseUrl legacyServer "http://localhost:3000/mcp" = Some "http://localhost:3000/mcp"
  /\ connectOutcome legacyServer StreamableHttp "http://localhost:3000/mcp"
     = Some (Js.Err "Error" "Error POSTing to endpoint (HTTP 404)")
  /\ exists before after,
       snd (negotiate legacyServer "http://localhost:3000/mcp")
       = (before
          ++ ConsoleLog ("StreamableHttp transport connection failed: "
                         ++ Js.toString (Js.Err "Error" "Error POSTing to endpoint (HTTP 404)"))
          :: ConsoleLog "2. Falling back to deprecated HTTP+SSE transport..."
          :: after)%list
       /\ constructions Sse before = 0
       /\ constructions Sse after = 1.
Proof.
  split; [reflexivity | split; [reflexivity |]].
  apply (modern_failure_reason_is_printed legacyServer
           "http://localhost:3000/mcp" "http://localhost:3000/mcp"
           (Js.Err "Error" "Error POSTing to endpoint (HTTP 404)"));
    reflexivity.
Defined.

End NegotiatorExtra.

(** ** The OAuth callback listener *)

Module BrokerExtra.
Import Broker.

Section Loop.

Variable parsePairs : string -> list (string * string).
Variables platform redirectUrl : string.

Lemma run_app (evs1 evs2 : list event) :
  run parsePairs platform redirectUrl (evs1 ++ evs2)
  = fold_left (step parsePairs platform redirectUrl) evs2
      (run parsePairs platform redirectUrl evs1).
Proof. unfold run. apply fold_left_app. Qed.

Lemma settled_promise_is_kept (evs : list event) (st : state) :
  codePromise st <> Pending ->
  codePromise (fold_left (step parsePairs platform redirectUrl) evs st) = codePromise st.
Proof.
  intros Hset.
  apply (BrokerSpec.fold_step_invariant parsePairs platform redirectUrl
           (fun st' => codePromise st' = codePromise st)); [| reflexivity].
  intros st' ev H. destruct ev as [|req|ms|reason]; simpl; try exact H.
  - now destruct (server st').
  - destruct (server st'); try exact H.
    unfold requestListener. destruct (Js.truthy _); simpl; rewrite H;
      destruct (codePromise st); simpl; congruence.
Qed.

(** The close is scheduled by the branch that answers 200, and by no
    other statement: a server with a close pending or done has answered
    a request with the success page and has settled the result. *)
Lemma close_comes_from_success (evs : list event) :
  (timers (run parsePairs platform redirectUrl evs) = []
   /\ server (run parsePairs platform redirectUrl evs) <> Closed)
  \/ ((exists r, In r (responses (run parsePairs platform redirectUrl evs))
                 /\ statusCode r = 200 /\ body r = successPage)
      /\ codePromise (run parsePairs platform redirectUrl evs) <> Pending).
Proof.
  apply (BrokerSpec.run_invariant parsePairs platform redirectUrl
           (fun st => (timers st = [] /\ server st <> Closed)
                      \/ ((exists r, In r (responses st)
                                     /\ statusCode r = 200 /\ body r = successPage)
                          /\ codePromise st <> Pending))).
  - left. split; [reflexivity | discriminate].
  - clear evs. intros st ev H. destruct ev as [|req|ms|reason]; simpl; try exact H.
    + case_eq (server st); [intros port E | intros port E; exact H | intros E; exact H].
      destruct H as [[Ht _]|H]; [left | right; exact H].
      split; [exact Ht | discriminate].
    + case_eq (server st); [intros port E; exact H | intros port E | intros E; exact H].
      unfold requestListener. destruct (Js.truthy _); simpl.
      * right. split.
        -- eexists. split; [apply in_or_app; right; left; reflexivity |].
           split; reflexivity.
        -- destruct (codePromise st); discriminate.
      * destruct H as [[Ht Hs]|[(r & Hin & Hr) Hp]].
        -- left. split; assumption.
        -- right. split.
           ++ exists r. split; [apply in_or_app; left; exact Hin | exact Hr].
           ++ destruct (codePromise st); [congruence | discriminate ..].
    + destruct H as [[Ht Hs]|H]; [left | right; exact H].
      rewrite Ht. simpl. split; [reflexivity | exact Hs].
Qed.

(** A server with one close pending, due in [t] ms. *)
Lemma single_timer_fires_when_due (delays : list N) :
  forall (t : N) (st : state) (p : N),
    (0 < t)%N ->
    timers st = [t] ->
    server st = Listening p ->
    server (fold_left (step parsePairs platform redirectUrl) (map Elapse delays) st)
    = if (t <=? Samples.totalDelay delays)%N then Closed else Listening p.
Proof.
  induction delays as [|d delays IH]; intros t st p Ht Htimers Hserver; simpl.
  - destruct (N.leb_spec t 0); [lia | exact Hserver].
  - destruct (N.leb_spec t d) as [Hdue|Hlater].
    + assert (Hfired : timers (elapse d st) = []).
      { simpl. rewrite Htimers. simpl.
        destruct (N.leb_spec t d); [reflexivity | lia]. }
      rewrite (BrokerSpec.elapses_without_timers parsePairs platform redirectUrl
                 delays _ Hfired).
      simpl. rewrite Htimers. simpl.
      destruct (N.leb_spec t d); [| lia].
      destruct (N.leb_spec t (d + Samples.totalDelay delays)); [reflexivity | lia].
    + rewrite (IH (t - d)%N (elapse d st) p).
      * destruct (N.leb_spec (t - d) (Samples.totalDelay delays));
          destruct (N.leb_spec t (d + Samples.totalDelay delays)); try reflexivity; lia.
      * lia.
      * simpl. rewrite Htimers. simpl. destruct (N.leb_spec t d); [lia | reflexivity].
      * simpl. rewrite Htimers. simpl. destruct (N.leb_spec t d); [lia | exact Hserver].
Qed.

End Loop.

(** X7: the first request that the handler settles the pending result
    with decides it: once the result is resolved or rejected, no later
    request, delay or failure changes it. *)
Theorem result_is_decided_once
    (parsePairs : string -> list (string * string)) (platform redirectUrl : string)
    (evs1 evs2 : list event) :
  callbackResult (run parsePairs platform redirectUrl evs1) <> Pending ->
  callbackResult (run parsePairs platform redirectUrl (evs1 ++ evs2))
  = callbackResult (run parsePairs platform redirectUrl evs1).
Proof.
  intros H. rewrite run_app. now apply settled_promise_is_kept.
Qed.

Lemma result_is_decided_once_witness :
  callbackResult (run plainPairs "linux" "https://auth.example/authorize"
                    [ListenCallback; Request Samples.codeRequest]) <> Pending
  /\ callbackResult (run plainPairs "linux" "https://auth.example/authorize"
                       ([ListenCallback; Request Samples.codeRequest]
                        ++ [Request Samples.bareRequest; Elapse 2000]))
     = callbackResult (run plainPairs "linux" "https://auth.example/authorize"
                         [ListenCallback; Request Samples.codeRequest]).
Proof.
  split; [discriminate |].
  apply (result_is_decided_once plainPairs "linux" "https://auth.example/authorize"
           [ListenCallback; Request Samples.codeRequest]
           [Request Samples.bareRequest; Elapse 2000]).
  discriminate.
Defined.

(** X8: until the listen callback has run nothing happens: requests are
    not answered, the browser is not launched and the result stays
    pending, whatever else the event loop delivers. *)
Theorem nothing_happens_before_listening
    (parsePairs : string -> list (string * string)) (platform redirectUrl : string)
    (evs : list event) :
  run parsePairs platform redirectUrl
    (filter (fun ev => negb (Samples.isListenCallback ev)) evs)
  = {| server := Binding 8090;
       codePromise := Pending;
       responses := [];
       timers := [];
       spawned := [];
       console := ["Opening browser to: " ++ redirectUrl] |}.
Proof.
  unfold run. induction evs as [|ev evs IH]; [reflexivity |].
  destruct ev; simpl; exact IH.
Qed.

(** X9: the listener closes only after a success: whenever the server is
    closed, some request has been answered 200 with the success page
    and the pending result is settled. No other path of the callback
    closes the server. *)
Theorem listener_closes_only_after_success
    (parsePairs : string -> list (string * string)) (platform redirectUrl : string)
    (evs : list event) :
  server (run parsePairs platform redirectUrl evs) = Closed ->
  (exists r, In r (responses (run parsePairs platform redirectUrl evs))
             /\ statusCode r = 200 /\ body r = successPage)
  /\ callbackResult (run parsePairs platform redirectUrl evs) <> Pending.
Proof.
  intros Hclosed.
  destruct (close_comes_from_success parsePairs platform redirectUrl evs)
    as [[_ Hopen]|H]; [contradiction | exact H].
Qed.

Lemma listener_closes_only_after_success_witness :
  server (run plainPairs "linux" "https://auth.example/authorize"
            [ListenCallback; Request Samples.bareRequest; Request Samples.codeRequest;
             Elapse 1000]) = Closed
  /\ (exists r, In r (responses (run plainPairs "linux" "https://auth.example/authorize"
                                  [ListenCallback; Request Samples.bareRequest;
                                   Request Samples.codeRequest; Elapse 1000]))
                /\ statusCode r = 200 /\ body r = successPage)
  /\ callbackResult (run plainPairs "linux" "https://auth.example/authorize"
                       [ListenCallback; Request Samples.bareRequest;
                        Request Samples.codeRequest; Elapse 1000]) <> Pending.
Proof.
  split; [reflexivity |].
  apply (listener_closes_only_after_success plainPairs "linux"
           "https://auth.example/authorize"
           [ListenCallback; Request Samples.bareRequest; Request Samples.codeRequest;
            Elapse 1000]).
  reflexivity.
Defined.

(** X10: after a first request that carries a code the server closes
    when the delays since the request add up to 1000 ms, not before:
    however the time is cut into delays, the server is closed exactly
    when their total has reached 1000. *)
Theorem listener_closes_when_a_second_has_passed
    (parsePairs : string -> list (string * string)) (platform redirectUrl : string)
    (req : IncomingMessage) (delays : list N) :
  Js.truthy (queryCode parsePairs req) = true ->
  server (run parsePairs platform redirectUrl
            (ListenCallback :: Request req :: map Elapse delays))
  = if (1000 <=? Samples.totalDelay delays)%N then Closed else Listening 8090.
Proof.
  intros Hcode. unfold run. cbn [fold_left].
  apply single_timer_fires_when_due.
  - reflexivity.
  - simpl. unfold requestListener. now rewrite Hcode.
  - simpl. unfold requestListener. now rewrite Hcode.
Qed.

Lemma listener_closes_when_a_second_has_passed_witness :
  Js.truthy (queryCode plainPairs Samples.codeRequest) = true
  /\ server (run plainPairs "linux" "https://auth.example/authorize"
               (ListenCallback :: Request Samples.codeRequest
                  :: map Elapse [400; 599]%N))
     = Listening 8090
  /\ server (run plainPairs "linux" "https://auth.example/authorize"
               (ListenCallback :: Request Samples.codeRequest
                  :: map Elapse [400; 599; 1]%N))
     = Closed.
Proof.
  split; [reflexivity | split].
  - apply (listener_closes_when_a_second_has_passed plainPairs "linux"
             "https://auth.example/authorize" Samples.codeRequest [400; 599]%N).
    reflexivity.
  - apply (listener_closes_when_a_second_has_passed plainPairs "linux"
             "https://auth.example/authorize" Samples.codeRequest [400; 599; 1]%N).
    reflexivity.
Defined.

(** X11: every response the listener ever writes is one of the two
    static pages: text/html, either 200 with the success page or 400 with
    the failure page. *)
Theorem responses_are_the_two_static_pages
    (parsePairs : string -> list (string * string)) (platform redirectUrl : string)
    (evs : list event) :
  Forall Samples.isStaticPage (responses (run parsePairs platform redirectUrl evs)).
Proof.
  apply (BrokerSpec.run_invariant parsePairs platform redirectUrl
           (fun st => Forall Samples.isStaticPage (responses st))).
  - constructor.
  - clear evs. intros st ev H. destruct ev as [|req|ms|reason]; simpl; try exact H.
    + now destruct (server st).
    + destruct (server st); try exact H.
      unfold requestListener. destruct (Js.truthy _); simpl;
        (apply Forall_app; split; [exact H |]);
        repeat constructor; simpl; tauto.
Qed.

(** X12: for a first request in which [code] occurs at most once the
    listener does what its author meant: a non-empty code resolves the
    result with that code and is answered 200; no code or an empty one
    rejects the result with 'No authorization code provided' and is
    answered 400. *)
Theorem single_code_request_is_served_as_meant
    (parsePairs : string -> list (string * string)) (platform redirectUrl : string)
    (req : IncomingMessage) (u : string) :
  req_url req = Some u ->
  length (valuesOf "code" (parsePairs u)) <= 1 ->
  (exists c, valuesOf "code" (parsePairs u) = [c] /\ c <> ""
             /\ callbackResult (run parsePairs platform redirectUrl
                                  [ListenCallback; Request req])
                = Fulfilled (Js.Str c)
             /\ map statusCode (responses (run parsePairs platform redirectUrl
                                             [ListenCallback; Request req]))
                = [200])
  \/ ((forall c, In c (valuesOf "code" (parsePairs u)) -> c = "")
      /\ callbackResult (run parsePairs platform redirectUrl
                           [ListenCallback; Request req])
         = Rejected (Js.newError "No authorization code provided")
      /\ map statusCode (responses (run parsePairs platform redirectUrl
                                      [ListenCallback; Request req]))
         = [400]).
Proof.
  intros Hu Hlen.
  exact (BrokerSpec.first_request_with_single_code parsePairs platform redirectUrl
           req u Hu Hlen).
Qed.

Lemma single_code_request_is_served_as_meant_witness :
  req_url Samples.codeRequest = Some "/callback?code=abc123"
  /\ length (valuesOf "code" (plainPairs "/callback?code=abc123")) <= 1
  /\ callbackResult (run plainPairs "linux" "https://auth.example/authorize"
                       [ListenCallback; Request Samples.codeRequest])
     = Fulfilled (Js.Str "abc123").
Proof.
  split; [reflexivity | split; [apply le_n |]].
  destruct (single_code_request_is_served_as_meant plainPairs "linux"
              "https://auth.example/authorize" Samples.codeRequest
              "/callback?code=abc123" eq_refl (le_n 1))
    as [(c & _ & _ & H & _)|(_ & H & _)]; reflexivity.
Defined.

End BrokerExtra.

(** ** The demo workflow *)

Module DemoSpec.
Import Demo.

Lemma extend_nil (s : state) : extend s [] = s.
Proof. destruct s. unfold extend. simpl. now rewrite app_nil_r. Qed.

Lemma extend_extend (s : state) (a b : list event) :
  extend (extend s a) b = extend s (a ++ b).
Proof. unfold extend. simpl. now rewrite app_assoc. Qed.

Lemma hasHandler_extend (c : nat) (s : state) (evs : list event) :
  hasHandler c (extend s evs) = hasHandler c s.
Proof. reflexivity. Qed.

(** A loop whose body emits one event per element. *)
Lemma forEach_events {A} (body : A -> P unit) (f : A -> event) :
  (forall x s, body x s = (Done tt, extend s [f x])) ->
  forall xs s, forEach xs body s = (Done tt, extend s (map f xs)).
Proof.
  intros Hbody xs. induction xs as [|x xs IH]; intros s; simpl.
  - unfold ret. now rewrite extend_nil.
  - unfold bind. rewrite Hbody, IH, extend_extend. reflexivity.
Qed.

Lemma suspend_run (w : World) (c : nat) (at_ : suspension) (s : state) :
  suspend w c at_ s = (Done tt, extend s (notes w (hasHandler c s) at_)).
Proof.
  unfold suspend, notes, hasHandler. destruct (existsb _ _).
  - now apply forEach_events.
  - now rewrite extend_nil.
Qed.

Lemma request_run {A} (w : World) (c : nat) (r : Request) (at_ : suspension)
    (response : Negotiator.result A) (s : state) :
  request w c r at_ response s
  = (match response with
     | Negotiator.Returned a => Done a
     | Negotiator.Thrown e => Raised e
     end,
     extend s (RequestSent c r :: notes w (hasHandler c s) at_)).
Proof.
  unfold request, bind, emit. rewrite suspend_run.
  change (hasHandler c _) with (hasHandler c s).
  change {| trace := trace s ++ [RequestSent c r]; handlers := handlers s |}
    with (extend s [RequestSent c r]).
  rewrite extend_extend. now destruct response.
Qed.

(** [listTools] from any state: it returns, and the trace grows by the
    events of [listToolsEvents]. *)
Lemma listTools_run (w : World) (c : nat) (s : state) :
  listTools w c s = (Done tt, extend s (listToolsEvents w c (hasHandler c s))).
Proof.
  unfold listTools, tryCatch, bind, listToolsEvents. rewrite request_run.
  fold listToolsRequest.
  destruct (listToolsResult w c) as [tools|e].
  - destruct tools as [|tool tools].
    + simpl. unfold consoleLog, emit, extend. simpl.
      now rewrite <- !app_assoc.
    + cbn [length Nat.eqb]. unfold consoleLog at 1. unfold emit.
      rewrite (forEach_events (fun tool => consoleLog (toolLine tool))
                 (fun tool => ConsoleLog (toolLine tool))) by reflexivity.
      unfold extend. simpl. now rewrite <- !app_assoc.
  - unfold consoleLog, emit, extend. simpl. now rewrite <- !app_assoc.
Qed.

Lemma startNotificationTool_run (w : World) (c : nat) (s : state) :
  startNotificationTool w c s
  = (Done tt, extend s (callToolEvents w c (hasHandler c s))).
Proof.
  unfold startNotificationTool, tryCatch, bind, callToolEvents.
  unfold consoleLog at 1. unfold emit at 1. rewrite request_run.
  fold callToolRequest.
  change (hasHandler c _) with (hasHandler c s).
  destruct (callToolResult w c) as [r|e].
  - unfold consoleLog at 1. unfold emit at 1. unfold contentItems.
    destruct (content r) as [items|].
    + rewrite (forEach_events _ itemEvent).
      * unfold extend. simpl. now rewrite <- !app_assoc.
      * intros item s0. unfold itemEvent.
        now destruct (String.eqb (item_type item) "text").
    + unfold ret, extend. simpl. now rewrite <- !app_assoc.
  - unfold consoleLog, emit, extend. simpl. now rewrite <- !app_assoc.
Qed.

Lemma hasHandler_registered (c : nat) (tr : list event) (hs : list nat) :
  hasHandler c {| trace := tr; handlers := c :: hs |} = true.
Proof. unfold hasHandler. simpl. now rewrite Nat.eqb_refl. Qed.

(** [main] from the start of the program, by the outcome of the
    negotiation. *)
Lemma main_run (w : World) (argv : list string) :
  main w argv init
  = match Negotiator.negotiate (server w) (Cli.serverUrl argv) with
    | (Negotiator.Returned connection, tr) =>
        (match closeResult w (Negotiator.transport connection) with
         | None => Done tt
         | Some _ => Exited 1
         end,
         {| trace := banner argv ++ map Negotiation tr ++ workflowEvents w connection;
            handlers := [Negotiator.client connection] |})
    | (Negotiator.Thrown e, tr) =>
        (Exited 1,
         {| trace := banner argv ++ map Negotiation tr
                     ++ [ConsoleErrorValue "Error running client:" e; ProcessExit 1];
            handlers := [] |})
    end.
Proof.
  unfold main, connectWithBackwardsCompatibility.
  destruct (Negotiator.negotiate (server w) (Cli.serverUrl argv)) as [[connection|e] tr].
  - cbv [bind tryCatch consoleLog emit setNotificationHandler sleep close init
         trace handlers].
    rewrite listTools_run, hasHandler_registered. cbv [extend trace handlers].
    rewrite startNotificationTool_run, hasHandler_registered. cbv [extend trace handlers].
    rewrite suspend_run, hasHandler_registered. cbv [extend trace handlers].
    rewrite suspend_run, hasHandler_registered. cbv [extend trace handlers].
    unfold banner, workflowEvents, closingEvents.
    destruct (closeResult w (Negotiator.transport connection)) as [closeError|];
      cbv [raise ret processExit trace handlers];
      f_equal; f_equal; rewrite <- ?app_assoc; reflexivity.
  - cbv [bind tryCatch consoleLog emit processExit init trace handlers].
    unfold banner. f_equal. f_equal. rewrite <- ?app_assoc. reflexivity.
Qed.

(** *** Observations on the events of the helpers *)

Lemma consoleLines_app (a b : list event) :
  consoleLines (a ++ b) = (consoleLines a ++ consoleLines b)%list.
Proof. apply flat_map_app. Qed.

Lemma requestsSent_app (a b : list event) :
  requestsSent (a ++ b) = (requestsSent a ++ requestsSent b)%list.
Proof. apply flat_map_app. Qed.

Lemma actions_app (a b : list event) :
  actions (a ++ b) = (actions a ++ actions b)%list.
Proof. apply filter_app. Qed.

Lemma logged_lines {A} (f : A -> string) (xs : list A) :
  consoleLines (map (fun x => ConsoleLog (f x)) xs) = map f xs
  /\ requestsSent (map (fun x => ConsoleLog (f x)) xs) = []
  /\ actions (map (fun x => ConsoleLog (f x)) xs) = [].
Proof.
  induction xs as [|x xs (IH1 & IH2 & IH3)]; simpl; [now repeat split |].
  repeat split; [now rewrite IH1 | exact IH2 | exact IH3].
Qed.

Lemma item_lines (items : list ContentItem) :
  consoleLines (map itemEvent items) = map itemLine items
  /\ requestsSent (map itemEvent items) = []
  /\ actions (map itemEvent items) = [].
Proof.
  induction items as [|item items (IH1 & IH2 & IH3)]; simpl; [now repeat split |].
  unfold itemEvent at 1 3 5, itemLine at 1.
  destruct (String.eqb (item_type item) "text"); simpl;
    (repeat split; [now rewrite IH1 | exact IH2 | exact IH3]).
Qed.

Lemma notes_lines (w : World) (notify : bool) (at_ : suspension) :
  consoleLines (notes w notify at_)
  = (if notify then map notificationLine (delivered w at_) else [])
  /\ requestsSent (notes w notify at_) = []
  /\ actions (notes w notify at_) = [].
Proof.
  unfold notes. destruct notify; [apply logged_lines | now repeat split].
Qed.

Lemma negotiation_lines (tr : list Negotiator.event) :
  consoleLines (map Negotiation tr) = []
  /\ requestsSent (map Negotiation tr) = []
  /\ actions (map Negotiation tr) = [].
Proof. induction tr as [|e tr IH]; simpl; [now repeat split | exact IH]. Qed.

Lemma listToolsEvents_observed (w : World) (c : nat) (notify : bool) :
  consoleLines (listToolsEvents w c notify)
  = List.app
      (if notify then map notificationLine (delivered w AwaitListTools) else [])
      match listToolsResult w c with
      | Negotiator.Returned [] => ["Available tools:"; "  No tools available"]
      | Negotiator.Returned tools => "Available tools:" :: map toolLine tools
      | Negotiator.Thrown e =>
          ["Tools not supported by this server: " ++ Js.toString e]
      end
  /\ requestsSent (listToolsEvents w c notify) = [(c, listToolsRequest)]
  /\ actions (listToolsEvents w c notify) = [RequestSent c listToolsRequest].
Proof.
  unfold listToolsEvents.
  destruct (notes_lines w notify AwaitListTools) as (N1 & N2 & N3).
  change (consoleLines (RequestSent c listToolsRequest :: ?l)) with (consoleLines l).
  change (requestsSent (RequestSent c listToolsRequest :: ?l))
    with ((c, listToolsRequest) :: requestsSent l).
  change (actions (RequestSent c listToolsRequest :: ?l))
    with (RequestSent c listToolsRequest :: actions l).
  rewrite consoleLines_app, requestsSent_app, actions_app, N1, N2, N3.
  destruct (listToolsResult w c) as [[|tool tools]|e];
    try (repeat split; reflexivity).
  destruct (logged_lines toolLine (tool :: tools)) as (L1 & L2 & L3).
  change (consoleLines (ConsoleLog "Available tools:" :: ?l))
    with ("Available tools:" :: consoleLines l).
  change (requestsSent (ConsoleLog "Available tools:" :: ?l)) with (requestsSent l).
  change (actions (ConsoleLog "Available tools:" :: ?l)) with (actions l).
  rewrite L1, L2, L3. repeat split; reflexivity.
Qed.

Lemma callToolEvents_observed (w : World) (c : nat) (notify : bool) :
  consoleLines (callToolEvents w c notify)
  = "Calling notification tool..." ::
    List.app
      (if notify then map notificationLine (delivered w AwaitCallTool) else [])
      match callToolResult w c with
      | Negotiator.Returned r => "Tool result:" :: map itemLine (contentItems r)
      | Negotiator.Thrown e =>
          ["Error calling notification tool: " ++ Js.toString e]
      end
  /\ requestsSent (callToolEvents w c notify) = [(c, callToolRequest)]
  /\ actions (callToolEvents w c notify) = [RequestSent c callToolRequest].
Proof.
  unfold callToolEvents.
  destruct (notes_lines w notify AwaitCallTool) as (N1 & N2 & N3).
  change (consoleLines (ConsoleLog ?x :: RequestSent c callToolRequest :: ?l))
    with (x :: consoleLines l).
  change (requestsSent (ConsoleLog ?x :: RequestSent c callToolRequest :: ?l))
    with ((c, callToolRequest) :: requestsSent l).
  change (actions (ConsoleLog ?x :: RequestSent c callToolRequest :: ?l))
    with (RequestSent c callToolRequest :: actions l).
  rewrite consoleLines_app, requestsSent_app, actions_app, N1, N2, N3.
  destruct (callToolResult w c) as [r|e];
    try (repeat split; reflexivity).
  destruct (item_lines (contentItems r)) as (L1 & L2 & L3).
  change (consoleLines (ConsoleLog "Tool result:" :: ?l))
    with ("Tool result:" :: consoleLines l).
  change (requestsSent (ConsoleLog "Tool result:" :: ?l)) with (requestsSent l).
  change (actions (ConsoleLog "Tool result:" :: ?l)) with (actions l).
  rewrite L1, L2, L3. repeat split; reflexivity.
Qed.

(** *** listTools and startNotificationTool *)

(** X13: [listTools] never throws, whatever the server answers: it sends
    the one request 'tools/list' on the client it is given and returns,
    and it registers no handler. *)
Theorem listTools_swallows_every_failure (w : World) (c : nat) (s : state) :
  fst (listTools w c s) = Done tt
  /\ requestsSent (trace (snd (listTools w c s)))
     = List.app (requestsSent (trace s)) [(c, listToolsRequest)]
  /\ handlers (snd (listTools w c s)) = handlers s.
Proof.
  rewrite listTools_run. cbn [fst snd extend trace handlers].
  destruct (listToolsEvents_observed w c (hasHandler c s)) as (_ & R & _).
  now rewrite requestsSent_app, R.
Qed.

(** X14: what [listTools] prints, after the notifications that arrive
    while it waits (printed only if the client has a handler): for a
    non-empty answer 'Available tools:' and one line '  - name:
    description' per tool in the order of the answer; for an empty answer
    'Available tools:' and '  No tools available'; for a failed request
    the single line 'Tools not supported by this server: ' with the
    error. *)
Theorem listTools_prints_each_tool (w : World) (c : nat) (s : state) :
  consoleLines (trace (snd (listTools w c s)))
  = List.app (consoleLines (trace s))
      (List.app
         (if hasHandler c s
          then map notificationLine (delivered w AwaitListTools) else [])
         match listToolsResult w c with
         | Negotiator.Returned [] => ["Available tools:"; "  No tools available"]
         | Negotiator.Returned tools => "Available tools:" :: map toolLine tools
         | Negotiator.Thrown e =>
             ["Tools not supported by this server: " ++ Js.toString e]
         end).
Proof.
  rewrite listTools_run. cbn [fst snd extend trace handlers].
  destruct (listToolsEvents_observed w c (hasHandler c s)) as (L & _ & _).
  now rewrite consoleLines_app, L.
Qed.

(** X15: [startNotificationTool] never throws. It prints 'Calling
    notification tool...' and only then sends its one request, which is
    'tools/call' of 'start-notification-stream' with interval 1000 and
    count 5. *)
Theorem startNotificationTool_announces_then_calls (w : World) (c : nat) (s : state) :
  fst (startNotificationTool w c s) = Done tt
  /\ exists rest,
       trace (snd (startNotificationTool w c s))
       = List.app (trace s)
           (ConsoleLog "Calling notification tool..."
            :: RequestSent c {| method := "tools/call";
                                req_params := ToolCall "start-notification-stream"
                                                [("interval", 1000%N); ("count", 5%N)] |}
            :: rest)
       /\ requestsSent rest = [].
Proof.
  rewrite startNotificationTool_run. cbn [fst snd extend trace handlers].
  split; [reflexivity |]. unfold callToolEvents. eexists. split; [reflexivity |].
  destruct (notes_lines w (hasHandler c s) AwaitCallTool) as (_ & N & _).
  rewrite requestsSent_app, N.
  destruct (callToolResult w c) as [r|e]; [| reflexivity].
  destruct (item_lines (contentItems r)) as (_ & I & _).
  change (requestsSent (ConsoleLog "Tool result:" :: ?l)) with (requestsSent l).
  now rewrite I.
Qed.

Lemma consoleCalls_app (a b : list event) :
  DemoOutput.consoleCalls (a ++ b)
  = (DemoOutput.consoleCalls a ++ DemoOutput.consoleCalls b)%list.
Proof. apply flat_map_app. Qed.

Lemma notes_calls (w : World) (notify : bool) (at_ : suspension) :
  DemoOutput.consoleCalls (notes w notify at_)
  = if notify
    then map (fun n => DemoOutput.oneArgument (notificationLine n)) (delivered w at_)
    else [].
Proof.
  unfold notes. destruct notify; [| reflexivity].
  induction (delivered w at_) as [|n ns IH]; simpl; [reflexivity | now rewrite <- IH].
Qed.

Lemma item_calls (items : list ContentItem) :
  DemoOutput.consoleCalls (map itemEvent items) = map DemoOutput.itemCall items.
Proof.
  induction items as [|item items IH]; simpl; [reflexivity |].
  unfold itemEvent at 1, DemoOutput.itemCall at 1.
  destruct (String.eqb (item_type item) "text"); simpl; now rewrite <- IH.
Qed.

(** X16: the console.log calls of [startNotificationTool] after its
    announcement and the notifications that arrive while it waits: on
    success the call 'Tool result:' and one call per content item in
    order, with the single argument '  <text>' for an item of type
    'text' and with two arguments, the label '  <type> content:' and the
    item itself, for any other; only 'Tool result:' when the result has
    no content; for a failed request the single call 'Error calling
    notification tool: ' with the error. *)
Theorem startNotificationTool_prints_each_item (w : World) (c : nat) (s : state) :
  DemoOutput.consoleCalls (trace (snd (startNotificationTool w c s)))
  = List.app (DemoOutput.consoleCalls (trace s))
      (("Calling notification tool...", None) ::
       List.app
         (if hasHandler c s
          then map (fun n => (notificationLine n, None)) (delivered w AwaitCallTool)
          else [])
         match callToolResult w c with
         | Negotiator.Returned r =>
             ("Tool result:", None) ::
             map (fun item =>
                    if String.eqb (item_type item) "text"
                    then ("  " ++ item_text item, None)
                    else ("  " ++ item_type item ++ " content:", Some item))
                 match content r with
                 | Some items => items
                 | None => []
                 end
         | Negotiator.Thrown e =>
             [("Error calling notification tool: " ++ Js.toString e, None)]
         end).
Proof.
  rewrite startNotificationTool_run. cbn [fst snd extend trace handlers].
  rewrite consoleCalls_app. f_equal. unfold callToolEvents.
  change (DemoOutput.consoleCalls
            (ConsoleLog ?x :: RequestSent c callToolRequest :: ?l))
    with ((x, @None ContentItem) :: DemoOutput.consoleCalls l).
  f_equal. rewrite consoleCalls_app, notes_calls. f_equal.
  destruct (callToolResult w c) as [r|e]; [| reflexivity].
  change (DemoOutput.consoleCalls (ConsoleLog "Tool result:" :: ?l))
    with (("Tool result:", @None ContentItem) :: DemoOutput.consoleCalls l).
  f_equal. apply item_calls.
Qed.

(** *** main *)

Lemma segment_here {A} (x b : list A) :
  exists pre post, (x ++ b = pre ++ x ++ post)%list.
Proof. now exists [], b. Qed.

Lemma segment_skip {A} (a l x : list A) :
  (exists pre post, l = pre ++ x ++ post)%list ->
  exists pre post, (a ++ l = pre ++ x ++ post)%list.
Proof.
  intros (pre & post & ->). exists (a ++ pre)%list, post. now rewrite app_assoc.
Qed.

Lemma segment_cons {A} (e : A) (l x : list A) :
  (exists pre post, l = pre ++ x ++ post)%list ->
  exists pre post, (e :: l = pre ++ x ++ post)%list.
Proof. intros (pre & post & ->). now exists (e :: pre), post. Qed.

Lemma workflow_lines (w : World) (connection : Negotiator.Connection) :
  consoleLines (workflowEvents w connection)
  = ([(Js.nl ++ "=== Listing Available Tools ===")%string]
     ++ (map notificationLine (delivered w AwaitListTools)
         ++ match listToolsResult w (Negotiator.client connection) with
            | Negotiator.Returned [] => ["Available tools:"; "  No tools available"]
            | Negotiator.Returned tools => "Available tools:" :: map toolLine tools
            | Negotiator.Thrown e =>
                [("Tools not supported by this server: " ++ Js.toString e)%string]
            end)
     ++ [(Js.nl ++ "=== Starting Notification Stream ===")%string]
     ++ ("Calling notification tool..."
         :: map notificationLine (delivered w AwaitCallTool)
            ++ match callToolResult w (Negotiator.client connection) with
               | Negotiator.Returned r => "Tool result:" :: map itemLine (contentItems r)
               | Negotiator.Thrown e =>
                   [("Error calling notification tool: " ++ Js.toString e)%string]
               end)
     ++ [(Js.nl ++ "=== Waiting for all notifications ===")%string]
     ++ map notificationLine (delivered w AwaitTimer)
     ++ [(Js.nl ++ "=== Disconnecting ===")%string]
     ++ map notificationLine (delivered w AwaitClose)
     ++ consoleLines (closingEvents w (Negotiator.transport connection)))%list.
Proof.
  unfold workflowEvents. rewrite !consoleLines_app.
  destruct (listToolsEvents_observed w (Negotiator.client connection) true) as (-> & _ & _).
  destruct (callToolEvents_observed w (Negotiator.client connection) true) as (-> & _ & _).
  destruct (notes_lines w true AwaitTimer) as (-> & _ & _).
  destruct (notes_lines w true AwaitClose) as (-> & _ & _).
  reflexivity.
Qed.

Lemma workflow_actions (w : World) (connection : Negotiator.Connection) :
  actions (workflowEvents w connection)
  = ([SetNotificationHandler (Negotiator.client connection);
      RequestSent (Negotiator.client connection) listToolsRequest;
      RequestSent (Negotiator.client connection) callToolRequest;
      SetTimeout 5000;
      TransportClose (Negotiator.transport connection)]
     ++ match closeResult w (Negotiator.transport connection) with
        | None => []
        | Some _ => [ProcessExit 1]
        end)%list.
Proof.
  unfold workflowEvents. rewrite !actions_app.
  destruct (listToolsEvents_observed w (Negotiator.client connection) true) as (_ & _ & ->).
  destruct (callToolEvents_observed w (Negotiator.client connection) true) as (_ & _ & ->).
  destruct (notes_lines w true AwaitTimer) as (_ & _ & ->).
  destruct (notes_lines w true AwaitClose) as (_ & _ & ->).
  unfold closingEvents.
  now destruct (closeResult w (Negotiator.transport connection)).
Qed.

(** X17: when the negotiation fails, [main] prints 'Error running
    client:' with the error and exits the process with status 1; it sends
    no request, registers no handler and closes no transport. *)
Theorem main_stops_when_negotiation_fails (w : World) (argv : list string) (e : Js.value) :
  fst (Negotiator.negotiate (server w) (Cli.serverUrl argv)) = Negotiator.Thrown e ->
  fst (main w argv init) = Exited 1
  /\ actions (trace (snd (main w argv init))) = [ProcessExit 1]
  /\ exists before,
       trace (snd (main w argv init))
       = List.app before [ConsoleErrorValue "Error running client:" e; ProcessExit 1].
Proof.
  intros H. rewrite main_run.
  destruct (Negotiator.negotiate (server w) (Cli.serverUrl argv)) as [[connection|e'] tr];
    simpl in H; [discriminate | injection H as ->].
  cbn [fst snd trace]. split; [reflexivity |]. split.
  - rewrite !actions_app. destruct (negotiation_lines tr) as (_ & _ & ->). reflexivity.
  - exists (banner argv ++ map Negotiation tr)%list. now rewrite <- app_assoc.
Qed.

Lemma main_stops_when_negotiation_fails_witness :
  fst (Negotiator.negotiate (server Samples.deadWorld) (Cli.serverUrl Samples.argv))
  = Negotiator.Thrown
      (Js.newError "Could not connect to server with any available transport")
  /\ fst (main Samples.deadWorld Samples.argv init) = Exited 1
  /\ actions (trace (snd (main Samples.deadWorld Samples.argv init))) = [ProcessExit 1].
Proof.
  split; [reflexivity |].
  destruct (main_stops_when_negotiation_fails Samples.deadWorld Samples.argv
              (Js.newError "Could not connect to server with any available transport")
              eq_refl) as (H1 & H2 & _).
  split; [exact H1 | exact H2].
Defined.

(** X18: when the negotiation returns a connection, [main] uses the
    client and transport of that connection and nothing else, in this
    order: register the notification handler, send 'tools/list', send
    'tools/call', wait 5000 ms, close the transport; a failed request
    changes nothing of it, and only a failed close adds an exit with
    status 1. *)
Theorem main_workflow_order
    (w : World) (argv : list string) (connection : Negotiator.Connection) :
  fst (Negotiator.negotiate (server w) (Cli.serverUrl argv))
  = Negotiator.Returned connection ->
  actions (trace (snd (main w argv init)))
  = List.app
      [SetNotificationHandler (Negotiator.client connection);
       RequestSent (Negotiator.client connection)
         {| method := "tools/list"; req_params := NoParams |};
       RequestSent (Negotiator.client connection)
         {| method := "tools/call";
            req_params := ToolCall "start-notification-stream"
                            [("interval", 1000%N); ("count", 5%N)] |};
       SetTimeout 5000;
       TransportClose (Negotiator.transport connection)]
      match closeResult w (Negotiator.transport connection) with
      | None => []
      | Some _ => [ProcessExit 1]
      end.
Proof.
  intros H. rewrite main_run.
  destruct (Negotiator.negotiate (server w) (Cli.serverUrl argv)) as [[connection'|e] tr];
    simpl in H; [injection H as -> | discriminate].
  cbn [fst snd trace]. rewrite !actions_app, workflow_actions.
  destruct (negotiation_lines tr) as (_ & _ & ->). reflexivity.
Qed.

Lemma main_workflow_order_witness :
  fst (Negotiator.negotiate (server Samples.demoWorld) (Cli.serverUrl Samples.argv))
  = Negotiator.Returned
      {| Negotiator.client := 0;
         Negotiator.transport := Negotiator.streamableTransportOf "http://localhost:3000/mcp";
         Negotiator.transportType := "streamable-http" |}
  /\ actions (trace (snd (main Samples.demoWorld Samples.argv init)))
     = [SetNotificationHandler 0;
        RequestSent 0 listToolsRequest;
        RequestSent 0 callToolRequest;
        SetTimeout 5000;
        TransportClose (Negotiator.streamableTransportOf "http://localhost:3000/mcp")].
Proof.
  split; [reflexivity |].
  apply (main_workflow_order Samples.demoWorld Samples.argv
           {| Negotiator.client := 0;
              Negotiator.transport :=
                Negotiator.streamableTransportOf "http://localhost:3000/mcp";
              Negotiator.transportType := "streamable-http" |}).
  reflexivity.
Defined.

(** X19: [main] ends in one of two ways and never throws: it returns
    when the negotiation returned a connection and the close of its
    transport succeeded, and it exits the process with status 1 when the
    negotiation or the close failed. The outcome of the two requests has
    no part in it. *)
Theorem main_exit_status (w : World) (argv : list string) :
  fst (main w argv init)
  = match fst (Negotiator.negotiate (server w) (Cli.serverUrl argv)) with
    | Negotiator.Thrown _ => Exited 1
    | Negotiator.Returned connection =>
        match closeResult w (Negotiator.transport connection) with
        | None => Done tt
        | Some _ => Exited 1
        end
    end.
Proof.
  rewrite main_run.
  now destruct (Negotiator.negotiate (server w) (Cli.serverUrl argv)) as [[connection|e] tr].
Qed.

(** X20: the handler of [main().catch] never runs: the whole program
    behaves as [main] does, and 'Error running MCP client:' is never
    printed. *)
Theorem outer_catch_is_unreachable (w : World) (argv : list string) :
  program w argv init = main w argv init
  /\ forall e, fst (main w argv init) <> Raised e.
Proof.
  unfold program, tryCatch. rewrite main_run.
  destruct (Negotiator.negotiate (server w) (Cli.serverUrl argv)) as [[connection|e] tr].
  - destruct (closeResult w (Negotiator.transport connection)); now split.
  - now split.
Qed.

(** X21: when the negotiation returns a connection, every notification
    the server sends while [main] waits for a request, for the timer or
    for the close is printed: the lines of the notifications of each wait
    appear in the output, together and in their order of arrival. *)
Theorem notifications_are_printed
    (w : World) (argv : list string) (connection : Negotiator.Connection)
    (at_ : suspension) :
  fst (Negotiator.negotiate (server w) (Cli.serverUrl argv))
  = Negotiator.Returned connection ->
  exists before after,
    consoleLines (trace (snd (main w argv init)))
    = List.app before (List.app (map notificationLine (delivered w at_)) after).
Proof.
  intros H. rewrite main_run.
  destruct (Negotiator.negotiate (server w) (Cli.serverUrl argv)) as [[connection'|e] tr];
    simpl in H; [injection H as -> | discriminate].
  cbn [fst snd trace]. rewrite !consoleLines_app, workflow_lines.
  destruct (negotiation_lines tr) as (-> & _ & _).
  repeat (rewrite <- app_assoc || rewrite <- app_comm_cons).
  destruct at_;
    repeat first [apply segment_here | apply segment_skip | apply segment_cons].
Qed.

Lemma notifications_are_printed_witness :
  fst (Negotiator.negotiate (server Samples.demoWorld) (Cli.serverUrl Samples.argv))
  = Negotiator.Returned
      {| Negotiator.client := 0;
         Negotiator.transport := Negotiator.streamableTransportOf "http://localhost:3000/mcp";
         Negotiator.transportType := "streamable-http" |}
  /\ exists before after,
       consoleLines (trace (snd (main Samples.demoWorld Samples.argv init)))
       = List.app before
           (List.app ["Notification: info - Periodic notification #1"] after).
Proof.
  split; [reflexivity |].
  apply (notifications_are_printed Samples.demoWorld Samples.argv
           {| Negotiator.client := 0;
              Negotiator.transport :=
                Negotiator.streamableTransportOf "http://localhost:3000/mcp";
              Negotiator.transportType := "streamable-http" |}
           AwaitCallTool).
  reflexivity.
Defined.

End DemoSpec.
